(** * mcp-server-openai: the tool dispatcher and its OpenAI connector

    A shallow embedding of [src/mcp_server_openai/server.py]
    ([handle_tool_call]) and [src/mcp_server_openai/llm.py]
    ([LLMConnector.ask_openai], [LLMConnector.ask_openai_vision]).

    Python values are an inductive type, the [arguments] dict is a finite
    map with string keys, exceptions are values of a sum type, and the
    effects of the code (reading the image file, calling
    [client.chat.completions.create], writing a record to a logger) are
    collected in a trace by a small writer/error monad.  The file system
    and the OpenAI client are the two collaborators of the code; they are
    Section variables, so every theorem holds for all of them.  A
    "request" below is one call of [create] with its keyword arguments:
    what the client does with it on the wire, its own retries included,
    lies behind that call. *)

From Stdlib Require Import Floats Strings.Byte Ascii String.
From stdpp Require Import gmap strings list fin_maps.

Set Default Proof Using "Type".
Set Warnings "-register-all,-inexact-float".

Open Scope string_scope.
Open Scope list_scope.

(** ** Python values *)

(** The values that a JSON-decoded [arguments] dict can hold, and that the
    code builds for the request.  A dict literal keeps its insertion
    order, hence the association list. *)
Inductive pyval : Type :=
| VNone
| VBool (b : bool)
| VInt (n : Z)
| VFloat (f : float)
| VStr (s : string)
| VList (l : list pyval)
| VDict (d : list (string * pyval)).

(** The line feed that ["\n"] denotes in the Python sources. *)
Definition LF : string := String (Ascii.ascii_of_nat 10) EmptyString.

(** ** Exceptions *)

(** [KeyError], [ValueError], [IndexError] and [TypeError] are raised by
    the code itself.  [Raised] stands for whatever a collaborator raises:
    its flag
    tells whether the class derives from [Exception] (an [OSError], an
    [openai.APIError]) or only from [BaseException] (a [KeyboardInterrupt],
    an [asyncio.CancelledError]), which is what [except Exception] tests. *)
Inductive exn : Type :=
| KeyError (key : string)
| ValueError (msg : string)
| IndexError (msg : string)
| TypeError (msg : string)
| Raised (derives_Exception : bool) (msg : string).

Definition isinstance_Exception (e : exn) : bool :=
  match e with
  | Raised b _ => b
  | _ => true
  end.

(** [repr] of a [str] made of plain characters (no quote, no backslash, no
    control character), which is all the keys looked up by the code. *)
Definition repr_str (s : string) : string := "'" +:+ s +:+ "'".

(** [str(e)]: the message, and for a [KeyError] the [repr] of the key. *)
Definition str (e : exn) : string :=
  match e with
  | KeyError k => repr_str k
  | ValueError m => m
  | IndexError m => m
  | TypeError m => m
  | Raised _ m => m
  end.

(** ** The collaborators' data *)

(** The keyword arguments of [client.chat.completions.create]. *)
Record request : Type := {
  messages : pyval;
  model : pyval;
  temperature : pyval;
  max_tokens : pyval
}.

(** The part of an [openai] [ChatCompletion] that the code reads:
    [response.choices[0].message.content], a [str] or [None].  The client
    builds the completion without validating the body, so that [choices]
    is [None] when the body has none. *)
Record ChatCompletionMessage : Type := { content : option string }.
Record Choice : Type := { message : ChatCompletionMessage }.
Record ChatCompletion : Type := { choices : option (list Choice) }.

(** [mcp.types.TextContent]. *)
Record TextContent : Type := { type : string; text : string }.

(** ** Effects *)

(** The file opened and read, the call of [create] with its keyword
    arguments, the record written to a logger. *)
Inductive event : Type :=
| EvOpen (path : pyval)
| EvCreate (req : request)
| EvLogError (logger : string) (msg : string).

(** A computation yields the trace of its effects and either the exception
    it raised or its value. *)
Definition Py (A : Type) : Type := list event * (exn + A).

Definition ret {A} (a : A) : Py A := ([], inr a).

Definition raise {A} (e : exn) : Py A := ([], inl e).

Definition bind {A B} (m : Py A) (k : A -> Py B) : Py B :=
  match m with
  | (t, inl e) => (t, inl e)
  | (t, inr a) => let (t', r) := k a in (t ++ t', r)
  end.

(** [try: m except Exception as e: h e]. *)
Definition try_except {A} (m : Py A) (h : exn -> Py A) : Py A :=
  match m with
  | (t, inl e) =>
      if isinstance_Exception e
      then let (t', r) := h e in (t ++ t', r)
      else (t, inl e)
  | (t, inr a) => (t, inr a)
  end.

Declare Scope py_scope.
Delimit Scope py_scope with py.
Notation "x <- m ;; k" := (bind m (fun x => k))
  (at level 100, m at next level, right associativity) : py_scope.
Notation "m ;;; k" := (bind m (fun _ => k))
  (at level 100, right associativity) : py_scope.
Open Scope py_scope.

Definition trace {A} (m : Py A) : list event := fst m.
Definition outcome {A} (m : Py A) : exn + A := snd m.

(** [logger.error(msg)] of the module's logger. *)
Definition logger_error (logger msg : string) : Py unit :=
  ([EvLogError logger msg], inr tt).

(** ** Python primitives used by the code *)

(** [arguments[k]] for [arguments : dict | None]. *)
Definition getitem (arguments : option (gmap string pyval)) (k : string)
  : Py pyval :=
  match arguments with
  | None => raise (Raised true "'NoneType' object is not subscriptable")
  | Some d =>
      match d !! k with
      | Some v => ret v
      | None => raise (KeyError k)
      end
  end.

(** [arguments.get(k, dflt)]. *)
Definition dict_get (arguments : option (gmap string pyval)) (k : string)
    (dflt : pyval) : Py pyval :=
  match arguments with
  | None => raise (Raised true "'NoneType' object has no attribute 'get'")
  | Some d =>
      match d !! k with
      | Some v => ret v
      | None => ret dflt
      end
  end.

(** [not arguments] for [arguments : dict | None]. *)
Definition not_ (arguments : option (gmap string pyval)) : bool :=
  match arguments with
  | None => true
  | Some d => Nat.eqb (size d) 0
  end.

(** [l[0]] for [l] a list or [None]. *)
Definition getitem0 {A} (l : option (list A)) : Py A :=
  match l with
  | Some (x :: _) => ret x
  | Some [] => raise (IndexError "list index out of range")
  | None => raise (TypeError "'NoneType' object is not subscriptable")
  end.

(** How an f-string renders the connector's result, a [str] or [None]. *)
Definition format (r : option string) : string :=
  match r with
  | Some s => s
  | None => "None"
  end.

(** ** [base64.b64encode] *)

Module base64.

Definition alphabet : string :=
  "ABCDEFGHIJKLMNOPQRSTUVWXYZabcdefghijklmnopqrstuvwxyz0123456789+/".

(** The padding character [=]. *)
Definition pad : byte := Byte.x3d.

(** The character of a 6-bit group. *)
Definition digit (n : N) : byte :=
  match String.get (N.to_nat n) alphabet with
  | Some c => byte_of_ascii c
  | None => pad
  end.

(** The four 6-bit groups of a 24-bit block, most significant first. *)
Definition sextet (i : N) (block : N) : N :=
  N.land (N.shiftr block (6 * (3 - i))) 63.

Definition block (a b c : byte) : N :=
  N.lor (N.shiftl (Byte.to_N a) 16)
        (N.lor (N.shiftl (Byte.to_N b) 8) (Byte.to_N c)).

(** Three input bytes give four characters; a last block of one or two
    bytes is filled with zero bits and padded with [=]. *)
Fixpoint b64encode (s : list byte) : list byte :=
  match s with
  | [] => []
  | [a] =>
      let n := block a Byte.x00 Byte.x00 in
      [digit (sextet 0 n); digit (sextet 1 n); pad; pad]
  | [a; b] =>
      let n := block a b Byte.x00 in
      [digit (sextet 0 n); digit (sextet 1 n); digit (sextet 2 n); pad]
  | a :: b :: c :: rest =>
      let n := block a b c in
      digit (sextet 0 n) :: digit (sextet 1 n) :: digit (sextet 2 n)
        :: digit (sextet 3 n) :: b64encode rest
  end.

End base64.

(** [bytes.decode('utf-8')]: a [str] is represented by its UTF-8 bytes. *)
Definition decode_utf8 (b : list byte) : string := string_of_list_byte b.

(** ** server.py: the catalog *)

(** [mcp.types.Tool]. *)
Record Tool : Type := {
  name : string;
  description : string;
  inputSchema : pyval
}.

Definition handle_list_tools : list Tool :=
  [ {| name := "ask-openai";
       description := "Ask my assistant models a direct question";
       inputSchema :=
         VDict
           [ ("type", VStr "object");
             ("properties",
              VDict
                [ ("query",
                   VDict [("type", VStr "string");
                          ("description", VStr "Ask assistant")]);
                  ("model",
                   VDict [("type", VStr "string");
                          ("default", VStr "gpt-4");
                          ("enum", VList [VStr "gpt-4"; VStr "gpt-3.5-turbo"])]);
                  ("temperature",
                   VDict [("type", VStr "number");
                          ("default", VFloat 0.7);
                          ("minimum", VInt 0);
                          ("maximum", VInt 2)]);
                  ("max_tokens",
                   VDict [("type", VStr "integer");
                          ("default", VInt 500);
                          ("minimum", VInt 1);
                          ("maximum", VInt 4000)]) ]);
             ("required", VList [VStr "query"]) ] |};
    {| name := "ask-openai-vision";
       description := "Ask my vision-capable models about an image";
       inputSchema :=
         VDict
           [ ("type", VStr "object");
             ("properties",
              VDict
                [ ("query",
                   VDict [("type", VStr "string");
                          ("description", VStr "Question about the image")]);
                  ("image_path",
                   VDict [("type", VStr "string");
                          ("description", VStr "Path to the image file")]);
                  ("model",
                   VDict [("type", VStr "string");
                          ("default", VStr "gpt-4o");
                          ("enum", VList [VStr "gpt-4o"; VStr "gpt-4o-mini"])]);
                  ("temperature",
                   VDict [("type", VStr "number");
                          ("default", VFloat 0.7);
                          ("minimum", VInt 0);
                          ("maximum", VInt 2)]);
                  ("max_tokens",
                   VDict [("type", VStr "integer");
                          ("default", VInt 500);
                          ("minimum", VInt 1);
                          ("maximum", VInt 4000)]) ]);
             ("required", VList [VStr "query"; VStr "image_path"]) ] |} ].

(** ** llm.py: [LLMConnector] *)

Definition llm_logger : string := "mcp_server_openai.llm".
Definition server_logger : string := "mcp_server_openai.server".

Section Server.

(** [open(path, "rb")] followed by [read()], as the file system answers
    it. *)
Variable open_rb : pyval -> exn + list byte.

(** [AsyncOpenAI.chat.completions.create], as the client answers the
    call: the completion it returns or the exception it raises, once its
    own retries are over. *)
Variable create : request -> exn + ChatCompletion.

Definition open_read (path : pyval) : Py (list byte) :=
  ([EvOpen path], open_rb path).

Definition chat_completions_create (req : request) : Py ChatCompletion :=
  ([EvCreate req], create req).

Definition ask_openai (query model temperature max_tokens : pyval)
  : Py (option string) :=
  try_except
    (response <- chat_completions_create
       {| messages :=
            VList [ VDict [("role", VStr "system");
                           ("content", VStr "You are a helpful assistant.")];
                    VDict [("role", VStr "user"); ("content", query)] ];
          model := model;
          temperature := temperature;
          max_tokens := max_tokens |};;
     choice <- getitem0 (choices response);;
     ret (content (message choice)))
    (fun e =>
       logger_error llm_logger ("Failed to query OpenAI: " +:+ str e);;;
       raise e).

(** The user message of the vision request: the text part and the image
    inlined as a data URL. *)
Definition vision_messages (query : pyval) (base64_image : string) : pyval :=
  VList
    [ VDict [("role", VStr "system");
             ("content",
              VStr "You are a helpful assistant that can analyze images.")];
      VDict [("role", VStr "user");
             ("content",
              VList
                [ VDict [("type", VStr "text"); ("text", query)];
                  VDict [("type", VStr "image_url");
                         ("image_url",
                          VDict [("url",
                                  VStr ("data:image/jpeg;base64,"
                                        +:+ base64_image))])] ])] ].

Definition ask_openai_vision
    (query image_path model temperature max_tokens : pyval)
  : Py (option string) :=
  try_except
    (image_data <- open_read image_path;;
     let base64_image := decode_utf8 (base64.b64encode image_data) in
     let messages := vision_messages query base64_image in
     response <- chat_completions_create
       {| model := model;
          messages := messages;
          temperature := temperature;
          max_tokens := max_tokens |};;
     choice <- getitem0 (choices response);;
     ret (content (message choice)))
    (fun e =>
       logger_error llm_logger ("Failed to query OpenAI Vision: " +:+ str e);;;
       raise e).


(** ** server.py: [handle_tool_call] *)

(** The suite of the [try] statement. *)
Definition handle_tool_call_try
    (name : string) (arguments : option (gmap string pyval))
  : Py (list TextContent) :=
  if not_ arguments then raise (ValueError "No arguments provided")
  else if String.eqb name "ask-openai" then
    query <- getitem arguments "query";;
    model <- dict_get arguments "model" (VStr "gpt-4");;
    temperature <- dict_get arguments "temperature" (VFloat 0.7);;
    max_tokens <- dict_get arguments "max_tokens" (VInt 500);;
    response <- ask_openai query model temperature max_tokens;;
    ret [ {| type := "text";
             text := "OpenAI Response:" +:+ LF +:+ format response |} ]
  else if String.eqb name "ask-openai-vision" then
    query <- getitem arguments "query";;
    image_path <- getitem arguments "image_path";;
    model <- dict_get arguments "model" (VStr "gpt-4o");;
    temperature <- dict_get arguments "temperature" (VFloat 0.7);;
    max_tokens <- dict_get arguments "max_tokens" (VInt 500);;
    response <- ask_openai_vision query image_path model temperature
                  max_tokens;;
    ret [ {| type := "text";
             text := "OpenAI Vision Response:" +:+ LF +:+ format response |} ]
  else raise (ValueError ("Unknown tool: " +:+ name)).

(** The [except Exception as e] clause. *)
Definition handle_tool_call_except (e : exn) : Py (list TextContent) :=
  logger_error server_logger ("Tool call failed: " +:+ str e);;;
  ret [ {| type := "text"; text := "Error: " +:+ str e |} ].

Definition handle_tool_call
    (name : string) (arguments : option (gmap string pyval))
  : Py (list TextContent) :=
  try_except (handle_tool_call_try name arguments) handle_tool_call_except.

End Server.

(** ** Reading the result *)

(** The names that the catalog declares. *)
Definition tool_names : list string := name <$> handle_list_tools.

(** A [TextContent] carries no status field: a reader tells a failure
    from an answer by the text's first characters. *)
Inductive status : Type := ok | error.

Definition status_of (c : TextContent) : status :=
  if String.prefix "Error: " (text c) then error else ok.

(** [contains s t]: [s in t] on strings. *)
Fixpoint contains (s t : string) : bool :=
  String.prefix s t ||
  match t with
  | EmptyString => false
  | String _ t' => contains s t'
  end.

(** Collaborators that raise only what [except Exception] catches. *)
Definition raises_Exception {A B} (f : A -> exn + B) : Prop :=
  forall a e, f a = inl e -> isinstance_Exception e = true.

(** The three shapes of the list that [handle_tool_call] returns. *)
Definition text_reply (response : option string) : list TextContent :=
  [ {| type := "text"; text := "OpenAI Response:" +:+ LF +:+ format response |} ].

Definition vision_reply (response : option string) : list TextContent :=
  [ {| type := "text";
       text := "OpenAI Vision Response:" +:+ LF +:+ format response |} ].

Definition error_reply (e : exn) : list TextContent :=
  [ {| type := "text"; text := "Error: " +:+ str e |} ].

(** The record that an [except Exception as e] clause writes to [logger]
    when the suite's outcome is [o]. *)
Definition logged {A} (logger intro : string) (o : exn + A) : list event :=
  match o with
  | inl e =>
      if isinstance_Exception e then [EvLogError logger (intro +:+ str e)]
      else []
  | inr _ => []
  end.

(** ** Reading the catalog *)

(** [d[k]] on a dict literal. *)
Definition assoc (k : string) (v : pyval) : option pyval :=
  match v with
  | VDict d => snd <$> List.find (fun kv => String.eqb (fst kv) k) d
  | _ => None
  end.

Definition find_tool (tool : string) : option Tool :=
  List.find (fun t => String.eqb (name t) tool) handle_list_tools.

(** What the schema of [tool] declares under [attr] ("default", "enum",
    "minimum", "maximum") for the argument [arg]. *)
Definition declared (tool arg attr : string) : option pyval :=
  t ← find_tool tool;
  properties ← assoc "properties" (inputSchema t);
  a ← assoc arg properties;
  assoc attr a.

(** The argument names that the schema of [tool] declares. *)
Definition declared_keys (tool : string) : list string :=
  match find_tool tool ≫= (fun t => assoc "properties" (inputSchema t)) with
  | Some (VDict properties) => fst <$> properties
  | _ => []
  end.

(** ** Stub collaborators for the scenarios *)

(** A file system without the file asked for. *)
Definition no_such_file (path : pyval) : exn + list byte :=
  match path with
  | VStr p =>
      inl (Raised true ("[Errno 2] No such file or directory: " +:+ repr_str p))
  | _ => inl (Raised true "expected str, bytes or os.PathLike object")
  end.

(** A file system that holds [data] at [p] and nothing else. *)
Definition one_file (p : string) (data : list byte) (path : pyval)
  : exn + list byte :=
  match path with
  | VStr q => if String.eqb q p then inr data else no_such_file path
  | _ => no_such_file path
  end.

(** An endpoint that answers every request with [answer]. *)
Definition answering (answer : string) (_ : request) : exn + ChatCompletion :=
  inr {| choices := Some [ {| message := {| content := Some answer |} |} ] |}.

(** An endpoint that rejects every request. *)
Definition rejecting (msg : string) (_ : request) : exn + ChatCompletion :=
  inl (Raised true msg).

(** An endpoint whose call is cancelled ([asyncio.CancelledError]). *)
Definition cancelled (_ : request) : exn + ChatCompletion :=
  inl (Raised false EmptyString).

(** An endpoint that answers with a completion without choices. *)
Definition no_choices (_ : request) : exn + ChatCompletion :=
  inr {| choices := Some [] |}.

(** An endpoint whose answer has no [choices] field. *)
Definition no_choices_field (_ : request) : exn + ChatCompletion :=
  inr {| choices := None |}.

(** A file system whose read is interrupted ([KeyboardInterrupt]). *)
Definition interrupted_read (_ : pyval) : exn + list byte :=
  inl (Raised false EmptyString).

(** An endpoint whose first choice has no content. *)
Definition answering_null (_ : request) : exn + ChatCompletion :=
  inr {| choices := Some [ {| message := {| content := None |} |} ] |}.

(** The dicts of the scenarios. *)
Definition query_only : gmap string pyval := {[ "query" := VStr "2+2?" ]}.

Definition query_and_logo : gmap string pyval :=
  {[ "query" := VStr "what is this?"; "image_path" := VStr "/logo.png" ]}.

Definition query_and_missing : gmap string pyval :=
  {[ "query" := VStr "what is this?"; "image_path" := VStr "/missing.jpg" ]}.

(** A temperature of 99 and a model outside the declared enumeration. *)
Definition out_of_range_arguments : gmap string pyval :=
  {[ "query" := VStr "hi"; "model" := VStr "davinci"; "temperature" := VInt 99 ]}.

(** The first bytes of a PNG file. *)
Definition png_magic : list byte :=
  [Byte.x89; Byte.x50; Byte.x4e; Byte.x47; Byte.x0d; Byte.x0a; Byte.x1a;
   Byte.x0a].

(** Membership in a list literal. *)
Ltac list_elem :=
  repeat first [apply list_elem_of_here | apply list_elem_of_further].

(** ** Reading a trace *)

(** The calls of [create] by their keyword arguments, the paths opened
    and the records logged, each in the order of the trace. *)
Definition requests (t : list event) : list request :=
  omap (fun ev => match ev with EvCreate req => Some req | _ => None end) t.

Definition reads (t : list event) : list pyval :=
  omap (fun ev => match ev with EvOpen path => Some path | _ => None end) t.

Definition log_records (t : list event) : list (string * string) :=
  omap (fun ev =>
          match ev with EvLogError logger msg => Some (logger, msg) | _ => None end)
       t.

(** The keyword argument [k] of a request. *)
Definition request_field (k : string) (req : request) : option pyval :=
  if String.eqb k "messages" then Some (messages req)
  else if String.eqb k "model" then Some (model req)
  else if String.eqb k "temperature" then Some (temperature req)
  else if String.eqb k "max_tokens" then Some (max_tokens req)
  else None.

(** The request that [handle_tool_call] has [ask_openai] send for the
    dict [args] and its query [q]. *)
Definition text_request (args : gmap string pyval) (q : pyval) : request :=
  {| messages :=
       VList [ VDict [("role", VStr "system");
                      ("content", VStr "You are a helpful assistant.")];
               VDict [("role", VStr "user"); ("content", q)] ];
     model := default (VStr "gpt-4") (args !! "model");
     temperature := default (VFloat 0.7) (args !! "temperature");
     max_tokens := default (VInt 500) (args !! "max_tokens") |}.

(** The request that it has [ask_openai_vision] send once the image file
    gave [data]. *)
Definition vision_request (args : gmap string pyval) (q : pyval)
    (data : list byte) : request :=
  {| messages := vision_messages q (decode_utf8 (base64.b64encode data));
     model := default (VStr "gpt-4o") (args !! "model");
     temperature := default (VFloat 0.7) (args !! "temperature");
     max_tokens := default (VInt 500) (args !! "max_tokens") |}.

(** [response.choices[0].message.content], the expression that both
    connectors return. *)
Definition read_answer (response : ChatCompletion) : Py (option string) :=
  choice <- getitem0 (choices response);;
  ret (content (message choice)).

(** The strings of a list literal. *)
Definition strings_of (v : pyval) : list string :=
  match v with
  | VList l => omap (fun x => match x with VStr s => Some s | _ => None end) l
  | _ => []
  end.

(** The argument names under ["required"] in the schema of [tool]. *)
Definition required (tool : string) : list string :=
  match find_tool tool ≫= (fun t => assoc "required" (inputSchema t)) with
  | Some v => strings_of v
  | None => []
  end.

(** The first required argument that [args] does not hold. *)
Definition first_missing (tool : string) (args : gmap string pyval)
  : option string :=
  List.find (fun k => bool_decide (args !! k = None)) (required tool).

(** What a connector does after its request [req], whose answer is [r]:
    it returns the content of the first choice, or logs under [intro] and
    raises. The dispatcher then wraps the answer with [reply], or logs and
    answers with the error item. [before] is the trace so far. *)
Definition after_request (before : list event) (intro : string)
    (reply : option string -> list TextContent) (r : exn + ChatCompletion)
  : Py (list TextContent) :=
  let failed e :=
    if isinstance_Exception e
    then (before
            ++ [EvLogError llm_logger (intro +:+ str e);
                EvLogError server_logger ("Tool call failed: " +:+ str e)],
          inr (error_reply e))
    else (before, inl e) in
  match r with
  | inl e => failed e
  | inr response =>
      match choices response with
      | None => failed (TypeError "'NoneType' object is not subscriptable")
      | Some [] => failed (IndexError "list index out of range")
      | Some (choice :: _) => (before, inr (reply (content (message choice))))
      end
  end.

(** ** Reading an encoding back *)

(** The characters that an encoding may hold. *)
Definition is_b64_char (c : byte) : bool :=
  existsb (Byte.eqb c) (base64.pad :: list_byte_of_string base64.alphabet).

(** The 6-bit group that a character of the alphabet stands for. *)
Definition b64_value (c : byte) : option N :=
  (fix index (i : N) (l : list byte) : option N :=
     match l with
     | [] => None
     | x :: l' => if Byte.eqb x c then Some i else index (N.succ i) l'
     end) 0%N (list_byte_of_string base64.alphabet).

(** The inverse of [b64encode], block by block: four characters give three
    bytes, a block that ends in one or two [=] gives two bytes or one. It
    is here to tell two inputs apart by their encodings. *)
Fixpoint b64decode (s : list byte) : option (list byte) :=
  match s with
  | [] => Some []
  | c0 :: c1 :: c2 :: c3 :: rest =>
      v0 ← b64_value c0;
      v1 ← b64_value c1;
      if Byte.eqb c3 base64.pad then
        if Byte.eqb c2 base64.pad then
          a ← Byte.of_N (v0 * 4 + v1 / 16)%N;
          Some [a]
        else
          v2 ← b64_value c2;
          a ← Byte.of_N (v0 * 4 + v1 / 16)%N;
          b ← Byte.of_N (v1 mod 16 * 16 + v2 / 4)%N;
          Some [a; b]
      else
        v2 ← b64_value c2;
        v3 ← b64_value c3;
        let n := (((v0 * 64 + v1) * 64 + v2) * 64 + v3)%N in
        a ← Byte.of_N (n / 65536)%N;
        b ← Byte.of_N ((n / 256) mod 256)%N;
        c ← Byte.of_N (n mod 256)%N;
        tail ← b64decode rest;
        Some (a :: b :: c :: tail)
  | _ => None
  end.

(** ** Test vectors *)

Example b64encode_Man :
  decode_utf8 (base64.b64encode (list_byte_of_string "Man")) = "TWFu".
Proof. reflexivity. Qed.

Example b64encode_Ma :
  decode_utf8 (base64.b64encode (list_byte_of_string "Ma")) = "TWE=".
Proof. reflexivity. Qed.

Example b64encode_M :
  decode_utf8 (base64.b64encode (list_byte_of_string "M")) = "TQ==".
Proof. reflexivity. Qed.

Example b64encode_foobar :
  decode_utf8 (base64.b64encode (list_byte_of_string "foobar")) = "Zm9vYmFy".
Proof. reflexivity. Qed.

Example b64encode_high_bytes :
  decode_utf8 (base64.b64encode [Byte.xff; Byte.xd8; Byte.xff; Byte.xe0])
  = "/9j/4A==".
Proof. reflexivity. Qed.

Example text_scenario :
  handle_tool_call no_such_file (answering "4") "ask-openai"
    (Some {[ "query" := VStr "2+2?" ]})
  = ([EvCreate
        {| messages :=
             VList [ VDict [("role", VStr "system");
                            ("content", VStr "You are a helpful assistant.")];
                     VDict [("role", VStr "user");
                            ("content", VStr "2+2?")] ];
           model := VStr "gpt-4";
           temperature := VFloat 0.7;
           max_tokens := VInt 500 |}],
     inr [ {| type := "text"; text := "OpenAI Response:" +:+ LF +:+ "4" |} ]).
Proof. reflexivity. Qed.

Example missing_image_scenario :
  handle_tool_call no_such_file (answering "4") "ask-openai-vision"
    (Some {[ "query" := VStr "what is this?";
             "image_path" := VStr "/missing.jpg" ]})
  = ([EvOpen (VStr "/missing.jpg");
      EvLogError llm_logger
        "Failed to query OpenAI Vision: [Errno 2] No such file or directory: '/missing.jpg'";
      EvLogError server_logger
        "Tool call failed: [Errno 2] No such file or directory: '/missing.jpg'"],
     inr [ {| type := "text";
              text := "Error: [Errno 2] No such file or directory: '/missing.jpg'" |} ]).
Proof. reflexivity. Qed.

Example cancelled_call_propagates :
  outcome (handle_tool_call no_such_file cancelled "ask-openai"
             (Some {[ "query" := VStr "2+2?" ]}))
  = inl (Raised false EmptyString).
Proof. reflexivity. Qed.

(** ** The shape of the encoding *)

(** Induction by blocks of three, as [b64encode] recurses. *)
Lemma list_ind3 {A} (P : list A -> Prop) :
  P [] -> (forall a, P [a]) -> (forall a b, P [a; b]) ->
  (forall a b c l, P l -> P (a :: b :: c :: l)) ->
  forall l, P l.
Proof.
  intros H0 H1 H2 H3 l.
  enough (P l /\ (forall a, P (a :: l)) /\ (forall a b, P (a :: b :: l)))
    as [Hl _] by exact Hl.
  induction l as [| c l (IH0 & IH1 & IH2)].
  - by repeat split.
  - split; [apply IH1 |]. split; [intros a; apply IH2 |].
    intros a b. by apply H3.
Qed.

(** X17. The encoding has four characters for every block of three
    bytes, the last block counted whole: its length is
    [4 * ceil(len(s) / 3)]. *)
Lemma b64encode_length (s : list byte) :
  length (base64.b64encode s) = 4 * ((length s + 2) / 3).
Proof.
  induction s as [| a | a b | a b c s IH] using list_ind3; try reflexivity.
  cbn [base64.b64encode length]. rewrite IH.
  replace (S (S (S (length s))) + 2) with ((length s + 2) + 1 * 3) by lia.
  rewrite Nat.div_add by lia. lia.
Qed.

(** ** Laws of the monad *)

Lemma outcome_bind {A B} (m : Py A) (k : A -> Py B) :
  outcome (bind m k)
  = match outcome m with
    | inl e => inl e
    | inr a => outcome (k a)
    end.
Proof.
  destruct m as [t [e | a]]; simpl; [reflexivity |].
  destruct (k a); reflexivity.
Qed.

Lemma trace_bind {A B} (m : Py A) (k : A -> Py B) :
  trace (bind m k)
  = match outcome m with
    | inl _ => trace m
    | inr a => trace m ++ trace (k a)
    end.
Proof.
  destruct m as [t [e | a]]; simpl; [reflexivity |].
  destruct (k a); reflexivity.
Qed.

Lemma outcome_try_except {A} (m : Py A) (h : exn -> Py A) :
  outcome (try_except m h)
  = match outcome m with
    | inl e => if isinstance_Exception e then outcome (h e) else inl e
    | inr a => inr a
    end.
Proof.
  destruct m as [t [e | a]]; simpl; [| reflexivity].
  destruct (isinstance_Exception e); [| reflexivity].
  destruct (h e); reflexivity.
Qed.

Lemma bind_ret_l {A B} (a : A) (k : A -> Py B) : bind (ret a) k = k a.
Proof. unfold bind, ret. destruct (k a); reflexivity. Qed.

Lemma bind_raise {A B} (e : exn) (k : A -> Py B) : bind (raise e) k = raise e.
Proof. reflexivity. Qed.

(** ** Truthiness of [arguments] *)

Lemma not_Some_nonempty (d : gmap string pyval) :
  size d ≠ 0 -> not_ (Some d) = false.
Proof. intros H. simpl. by apply Nat.eqb_neq. Qed.

Lemma not_true_iff (arguments : option (gmap string pyval)) :
  not_ arguments = true <-> arguments = None \/ arguments = Some ∅.
Proof.
  destruct arguments as [d |]; simpl.
  - rewrite Nat.eqb_eq, map_size_empty_iff. split.
    + intros ->. by right.
    + intros [H | H]; [discriminate | by injection H].
  - split; [by left | done].
Qed.

(** ** Substrings *)

Lemma prefix_app (s t : string) : String.prefix s (s +:+ t) = true.
Proof.
  induction s as [| c s IH]; simpl; [by destruct t |].
  destruct (ascii_dec c c); [exact IH | contradiction].
Qed.

Lemma contains_prefix (s t : string) :
  String.prefix s t = true -> contains s t = true.
Proof. intros H. destruct t; cbn [contains]; rewrite H; reflexivity. Qed.

Lemma contains_app_r (s pre t : string) :
  contains s t = true -> contains s (pre +:+ t) = true.
Proof.
  intros H. induction pre as [| c pre IH]; [exact H |].
  change (String.prefix s (String c (pre +:+ t)) || contains s (pre +:+ t)
          = true).
  rewrite IH. apply orb_true_r.
Qed.

Lemma string_app_inj_l (p a b : string) : p +:+ a = p +:+ b -> a = b.
Proof.
  induction p as [| c p IH]; [done |]. intros [= H]. by apply IH.
Qed.

Lemma prefix_refl (s : string) : String.prefix s s = true.
Proof.
  induction s as [| c s IH]; simpl; [reflexivity |].
  destruct (ascii_dec c c); [exact IH | contradiction].
Qed.

Lemma contains_suffix (s pre : string) : contains s (pre +:+ s) = true.
Proof. apply contains_app_r, contains_prefix, prefix_refl. Qed.

(** ** The dispatcher, step by step *)

Section Dispatch.

Variable open_rb : pyval -> exn + list byte.
Variable create : request -> exn + ChatCompletion.

Abbreviation ask_text := (ask_openai create).
Abbreviation ask_vision := (ask_openai_vision open_rb create).
Abbreviation dispatch_try := (handle_tool_call_try open_rb create).
Abbreviation dispatch := (handle_tool_call open_rb create).

Lemma dispatch_try_falsy name arguments :
  not_ arguments = true ->
  dispatch_try name arguments = raise (ValueError "No arguments provided").
Proof. intros H. unfold handle_tool_call_try. by rewrite H. Qed.

Lemma dispatch_try_text (args : gmap string pyval) :
  size args ≠ 0 ->
  dispatch_try "ask-openai" (Some args)
  = match args !! "query" with
    | None => raise (KeyError "query")
    | Some q =>
        response <- ask_text q
                      (default (VStr "gpt-4") (args !! "model"))
                      (default (VFloat 0.7) (args !! "temperature"))
                      (default (VInt 500) (args !! "max_tokens"));;
        ret (text_reply response)
    end.
Proof.
  intros H. unfold handle_tool_call_try.
  rewrite (not_Some_nonempty _ H). cbn [String.eqb Ascii.eqb Bool.eqb].
  unfold getitem, dict_get.
  destruct (args !! "query") as [q |]; [| reflexivity].
  rewrite bind_ret_l.
  destruct (args !! "model"), (args !! "temperature"), (args !! "max_tokens");
    rewrite !bind_ret_l; reflexivity.
Qed.

Lemma dispatch_try_vision (args : gmap string pyval) :
  size args ≠ 0 ->
  dispatch_try "ask-openai-vision" (Some args)
  = match args !! "query" with
    | None => raise (KeyError "query")
    | Some q =>
        match args !! "image_path" with
        | None => raise (KeyError "image_path")
        | Some p =>
            response <- ask_vision q p
                          (default (VStr "gpt-4o") (args !! "model"))
                          (default (VFloat 0.7) (args !! "temperature"))
                          (default (VInt 500) (args !! "max_tokens"));;
            ret (vision_reply response)
        end
    end.
Proof.
  intros H. unfold handle_tool_call_try.
  rewrite (not_Some_nonempty _ H). cbn [String.eqb Ascii.eqb Bool.eqb].
  unfold getitem, dict_get.
  destruct (args !! "query") as [q |]; [| reflexivity].
  rewrite bind_ret_l.
  destruct (args !! "image_path") as [p |]; [| reflexivity].
  rewrite bind_ret_l.
  destruct (args !! "model"), (args !! "temperature"), (args !! "max_tokens");
    rewrite !bind_ret_l; reflexivity.
Qed.

Lemma dispatch_try_unknown name (args : gmap string pyval) :
  size args ≠ 0 -> name ∉ tool_names ->
  dispatch_try name (Some args) = raise (ValueError ("Unknown tool: " +:+ name)).
Proof.
  intros H Hn. unfold handle_tool_call_try.
  rewrite (not_Some_nonempty _ H).
  unfold tool_names in Hn. simpl in Hn.
  apply not_elem_of_cons in Hn as [H1 Hn].
  apply not_elem_of_cons in Hn as [H2 _].
  apply String.eqb_neq in H1, H2. by rewrite H1, H2.
Qed.

(** What [dispatch] makes of the outcome of its [try] suite. *)
Lemma outcome_dispatch name arguments :
  outcome (dispatch name arguments)
  = match outcome (dispatch_try name arguments) with
    | inl e => if isinstance_Exception e then inr (error_reply e) else inl e
    | inr r => inr r
    end.
Proof. unfold handle_tool_call. by rewrite outcome_try_except. Qed.

(** The connectors log and re-raise: their outcome is that of the suite. *)
Lemma outcome_reraise {A} (m : Py A) (h : exn -> Py unit) :
  (forall e, outcome (h e) = inr tt) ->
  outcome (try_except m (fun e => h e;;; raise e)) = outcome m.
Proof.
  intros Hh. rewrite outcome_try_except.
  destruct (outcome m) as [e | a]; [| reflexivity].
  destruct (isinstance_Exception e); [| reflexivity].
  by rewrite outcome_bind, Hh.
Qed.

Lemma outcome_open_read p : outcome (open_read open_rb p) = open_rb p.
Proof. reflexivity. Qed.

Lemma trace_open_read p : trace (open_read open_rb p) = [EvOpen p].
Proof. reflexivity. Qed.

Lemma outcome_create req :
  outcome (chat_completions_create create req) = create req.
Proof. reflexivity. Qed.

Lemma trace_create req :
  trace (chat_completions_create create req) = [EvCreate req].
Proof. reflexivity. Qed.

Lemma outcome_ask_openai q m t mt :
  outcome (ask_text q m t mt)
  = match create {| messages :=
                      VList [ VDict [("role", VStr "system");
                                     ("content",
                                      VStr "You are a helpful assistant.")];
                              VDict [("role", VStr "user"); ("content", q)] ];
                    model := m; temperature := t; max_tokens := mt |} with
    | inl e => inl e
    | inr response =>
        match choices response with
        | None => inl (TypeError "'NoneType' object is not subscriptable")
        | Some [] => inl (IndexError "list index out of range")
        | Some (choice :: _) => inr (content (message choice))
        end
    end.
Proof.
  unfold ask_openai. rewrite outcome_reraise by reflexivity.
  rewrite outcome_bind, outcome_create.
  destruct (create _) as [e | r]; [reflexivity |].
  rewrite outcome_bind. by destruct (choices r) as [[| ? ?] |].
Qed.

Lemma outcome_ask_openai_vision q p m t mt :
  outcome (ask_vision q p m t mt)
  = match open_rb p with
    | inl e => inl e
    | inr image_data =>
        match create {| messages :=
                          vision_messages q
                            (decode_utf8 (base64.b64encode image_data));
                        model := m; temperature := t; max_tokens := mt |} with
        | inl e => inl e
        | inr response =>
            match choices response with
            | None => inl (TypeError "'NoneType' object is not subscriptable")
            | Some [] => inl (IndexError "list index out of range")
            | Some (choice :: _) => inr (content (message choice))
            end
        end
    end.
Proof.
  unfold ask_openai_vision. rewrite outcome_reraise by reflexivity.
  rewrite outcome_bind, outcome_open_read.
  destruct (open_rb p) as [e | data]; [reflexivity |].
  rewrite outcome_bind, outcome_create.
  destruct (create _) as [e | r]; [reflexivity |].
  rewrite outcome_bind. by destruct (choices r) as [[| ? ?] |].
Qed.

(** ** Traces *)

Lemma trace_try_except {A} (m : Py A) (h : exn -> Py A) :
  trace (try_except m h)
  = match outcome m with
    | inl e => if isinstance_Exception e then trace m ++ trace (h e) else trace m
    | inr _ => trace m
    end.
Proof.
  destruct m as [t [e | a]]; simpl; [| reflexivity].
  destruct (isinstance_Exception e); [| reflexivity].
  destruct (h e); reflexivity.
Qed.

(** A logging and re-raising [except] clause appends its record. *)
Lemma trace_reraise {A} (m : Py A) (logger intro : string) :
  trace (try_except m (fun e => logger_error logger (intro +:+ str e);;; raise e))
  = trace m ++ logged logger intro (outcome m).
Proof.
  rewrite trace_try_except. unfold logged.
  destruct (outcome m) as [e | a]; [| by rewrite app_nil_r].
  destruct (isinstance_Exception e); [reflexivity | by rewrite app_nil_r].
Qed.

Lemma trace_dispatch name arguments :
  trace (dispatch name arguments)
  = trace (dispatch_try name arguments)
    ++ logged server_logger "Tool call failed: "
         (outcome (dispatch_try name arguments)).
Proof.
  unfold handle_tool_call. rewrite trace_try_except. unfold logged.
  destruct (outcome _) as [e | a]; [| by rewrite app_nil_r].
  destruct (isinstance_Exception e); [reflexivity | by rewrite app_nil_r].
Qed.

Lemma trace_ask_openai q m t mt :
  trace (ask_text q m t mt)
  = EvCreate
      {| messages :=
           VList [ VDict [("role", VStr "system");
                          ("content", VStr "You are a helpful assistant.")];
                   VDict [("role", VStr "user"); ("content", q)] ];
         model := m; temperature := t; max_tokens := mt |}
    :: logged llm_logger "Failed to query OpenAI: "
         (outcome (ask_text q m t mt)).
Proof.
  rewrite outcome_ask_openai. unfold ask_openai. rewrite trace_reraise.
  rewrite outcome_bind, trace_bind, outcome_create, trace_create.
  destruct (create _) as [e | r]; [reflexivity |].
  rewrite outcome_bind, trace_bind. by destruct (choices r) as [[| ? ?] |].
Qed.

Lemma trace_ask_openai_vision q p m t mt :
  trace (ask_vision q p m t mt)
  = EvOpen p
    :: match open_rb p with
       | inl _ => []
       | inr image_data =>
           [EvCreate
              {| messages :=
                   vision_messages q
                     (decode_utf8 (base64.b64encode image_data));
                 model := m; temperature := t; max_tokens := mt |}]
       end
    ++ logged llm_logger "Failed to query OpenAI Vision: "
         (outcome (ask_vision q p m t mt)).
Proof.
  rewrite outcome_ask_openai_vision. unfold ask_openai_vision.
  rewrite trace_reraise.
  rewrite outcome_bind, trace_bind, outcome_open_read, trace_open_read.
  destruct (open_rb p) as [e | data]; [reflexivity |].
  rewrite outcome_bind, trace_bind, outcome_create, trace_create.
  destruct (create _) as [e | r]; [reflexivity |].
  rewrite outcome_bind, trace_bind. by destruct (choices r) as [[| ? ?] |].
Qed.

(** A computation is the pair of its trace and its outcome. *)
Lemma Py_eta {A} (m : Py A) : m = (trace m, outcome m).
Proof. by destruct m. Qed.

(** ** Unknown tools *)

(** C2, as the code has it. The guard on [arguments] comes before the
    tool name is looked at. For a name that the catalog does not declare
    and a non-empty [arguments], [handle_tool_call] logs and returns the
    single text item ["Error: Unknown tool: " + name], which reads as an
    error and contains the name. With [None] or an empty dict the item is
    ["Error: No arguments provided"], for every name, declared or not. *)
Theorem unknown_tool_error :
  (forall (name : string) (args : gmap string pyval),
     name ∉ tool_names ->
     size args ≠ 0 ->
     dispatch name (Some args)
     = ([EvLogError server_logger ("Tool call failed: Unknown tool: " +:+ name)],
        inr [ {| type := "text"; text := "Error: Unknown tool: " +:+ name |} ])
     /\ status_of {| type := "text"; text := "Error: Unknown tool: " +:+ name |}
        = error
     /\ contains name ("Error: Unknown tool: " +:+ name) = true) /\
  (forall (name : string) (arguments : option (gmap string pyval)),
     arguments = None \/ arguments = Some ∅ ->
     dispatch name arguments
     = ([EvLogError server_logger "Tool call failed: No arguments provided"],
        inr [ {| type := "text"; text := "Error: No arguments provided" |} ])).
Proof.
  split.
  - intros name args Hn Hargs. split; [| split].
    + unfold handle_tool_call. by rewrite (dispatch_try_unknown _ _ Hargs Hn).
    + reflexivity.
    + apply contains_suffix.
  - intros name arguments Ha%not_true_iff. unfold handle_tool_call.
    by rewrite (dispatch_try_falsy _ _ Ha).
Qed.

(** ** What reaches the endpoint *)

(** With its query present, the text tool's first effect is the request,
    built from the values found in [arguments] or else the defaults. *)
Lemma trace_dispatch_text (args : gmap string pyval) (q : pyval) :
  size args ≠ 0 -> args !! "query" = Some q ->
  exists rest,
    trace (dispatch "ask-openai" (Some args))
    = EvCreate
        {| messages :=
             VList [ VDict [("role", VStr "system");
                            ("content", VStr "You are a helpful assistant.")];
                     VDict [("role", VStr "user"); ("content", q)] ];
           model := default (VStr "gpt-4") (args !! "model");
           temperature := default (VFloat 0.7) (args !! "temperature");
           max_tokens := default (VInt 500) (args !! "max_tokens") |}
      :: rest.
Proof.
  intros Hargs Hq. rewrite trace_dispatch, (dispatch_try_text _ Hargs), Hq.
  rewrite trace_bind, trace_ask_openai.
  destruct (outcome (ask_text _ _ _ _)); eexists; reflexivity.
Qed.

(** The vision tool reads the file, then sends the request. *)
Lemma trace_dispatch_vision (args : gmap string pyval) (q p : pyval) data :
  size args ≠ 0 -> args !! "query" = Some q -> args !! "image_path" = Some p ->
  open_rb p = inr data ->
  exists rest,
    trace (dispatch "ask-openai-vision" (Some args))
    = EvOpen p
      :: EvCreate
           {| messages :=
                vision_messages q (decode_utf8 (base64.b64encode data));
              model := default (VStr "gpt-4o") (args !! "model");
              temperature := default (VFloat 0.7) (args !! "temperature");
              max_tokens := default (VInt 500) (args !! "max_tokens") |}
      :: rest.
Proof.
  intros Hargs Hq Hp Hdata.
  rewrite trace_dispatch, (dispatch_try_vision _ Hargs), Hq, Hp.
  rewrite trace_bind, trace_ask_openai_vision, Hdata.
  destruct (outcome (ask_vision _ _ _ _ _)); eexists; reflexivity.
Qed.

(** C3. Called with a dict that holds [query] and nothing else, the text
    tool calls [ask_openai] with model ["gpt-4"], temperature [0.7] and
    [max_tokens] [500], so that these are the values of the request sent to
    the endpoint; they are the defaults that the catalog declares. *)
Theorem query_only_uses_defaults (q : pyval) :
  dispatch_try "ask-openai" (Some {[ "query" := q ]})
  = (response <- ask_text q (VStr "gpt-4") (VFloat 0.7) (VInt 500);;
     ret (text_reply response))
  /\ (exists rest,
        trace (dispatch "ask-openai" (Some {[ "query" := q ]}))
        = EvCreate
            {| messages :=
                 VList [ VDict [("role", VStr "system");
                                ("content",
                                 VStr "You are a helpful assistant.")];
                         VDict [("role", VStr "user"); ("content", q)] ];
               model := VStr "gpt-4";
               temperature := VFloat 0.7;
               max_tokens := VInt 500 |}
          :: rest)
  /\ declared "ask-openai" "model" "default" = Some (VStr "gpt-4")
  /\ declared "ask-openai" "temperature" "default" = Some (VFloat 0.7)
  /\ declared "ask-openai" "max_tokens" "default" = Some (VInt 500).
Proof.
  assert (Hsize : size ({[ "query" := q ]} : gmap string pyval) ≠ 0)
    by (by rewrite map_size_singleton).
  split; [| split; [| by repeat split]].
  - rewrite (dispatch_try_text _ Hsize), lookup_singleton_eq.
    by rewrite !lookup_singleton_ne.
  - destruct (trace_dispatch_text _ q Hsize (lookup_singleton_eq _ _))
      as [rest Hrest].
    exists rest. rewrite Hrest. by rewrite !lookup_singleton_ne.
Qed.

(** ** Answers and missing keys *)


(** C5. For a non-empty [arguments]: the text tool without [query], and
    the vision tool without [query], return the single text item
    ["Error: 'query'"]; the vision tool with [query] but without
    [image_path] returns ["Error: 'image_path'"].  Each reads as an error
    and contains the missing key, and nothing is read or sent. *)
Theorem missing_required_argument (args : gmap string pyval) :
  size args ≠ 0 ->
  (args !! "query" = None ->
   dispatch "ask-openai" (Some args)
   = ([EvLogError server_logger "Tool call failed: 'query'"],
      inr [ {| type := "text"; text := "Error: 'query'" |} ])) /\
  (args !! "query" = None ->
   dispatch "ask-openai-vision" (Some args)
   = ([EvLogError server_logger "Tool call failed: 'query'"],
      inr [ {| type := "text"; text := "Error: 'query'" |} ])) /\
  (is_Some (args !! "query") -> args !! "image_path" = None ->
   dispatch "ask-openai-vision" (Some args)
   = ([EvLogError server_logger "Tool call failed: 'image_path'"],
      inr [ {| type := "text"; text := "Error: 'image_path'" |} ])) /\
  status_of {| type := "text"; text := "Error: 'query'" |} = error /\
  status_of {| type := "text"; text := "Error: 'image_path'" |} = error /\
  contains "query" "Error: 'query'" = true /\
  contains "image_path" "Error: 'image_path'" = true.
Proof.
  intros Hargs. repeat split.
  - intros Hq. unfold handle_tool_call.
    by rewrite (dispatch_try_text _ Hargs), Hq.
  - intros Hq. unfold handle_tool_call.
    by rewrite (dispatch_try_vision _ Hargs), Hq.
  - intros [q Hq] Hp. unfold handle_tool_call.
    by rewrite (dispatch_try_vision _ Hargs), Hq, Hp.
Qed.

(** ** No enforcement of the declared constraints *)

(** C6. Every value found in [arguments] reaches the endpoint as it is:
    the request of the text tool carries [arguments["query"]] as the user
    content and, for [model], [temperature] and [max_tokens], the value of
    the key when it is there (the default otherwise), whatever that value
    is; the same holds for the vision tool once the image is read, with
    [arguments["query"]] as the text part of the user message.  No
    value is tested against the catalog first: when the endpoint rejects
    the request with [e], the answer is the text item
    ["Error: " + str(e)]. *)
Theorem arguments_forwarded_unchanged (args : gmap string pyval) (q : pyval) :
  size args ≠ 0 -> args !! "query" = Some q ->
  (exists rest,
     trace (dispatch "ask-openai" (Some args))
     = EvCreate
         {| messages :=
              VList [ VDict [("role", VStr "system");
                             ("content", VStr "You are a helpful assistant.")];
                      VDict [("role", VStr "user"); ("content", q)] ];
            model := default (VStr "gpt-4") (args !! "model");
            temperature := default (VFloat 0.7) (args !! "temperature");
            max_tokens := default (VInt 500) (args !! "max_tokens") |}
       :: rest) /\
  (forall e,
     create
       {| messages :=
            VList [ VDict [("role", VStr "system");
                           ("content", VStr "You are a helpful assistant.")];
                    VDict [("role", VStr "user"); ("content", q)] ];
          model := default (VStr "gpt-4") (args !! "model");
          temperature := default (VFloat 0.7) (args !! "temperature");
          max_tokens := default (VInt 500) (args !! "max_tokens") |}
     = inl e ->
     isinstance_Exception e = true ->
     outcome (dispatch "ask-openai" (Some args))
     = inr [ {| type := "text"; text := "Error: " +:+ str e |} ]) /\
  (forall p data,
     args !! "image_path" = Some p -> open_rb p = inr data ->
     (exists rest,
        trace (dispatch "ask-openai-vision" (Some args))
        = EvOpen p
          :: EvCreate
               {| messages :=
                    VList
                    [ VDict [("role", VStr "system");
                             ("content",
                              VStr "You are a helpful assistant that can analyze images.")];
                      VDict [("role", VStr "user");
                             ("content",
                              VList
                                [ VDict [("type", VStr "text"); ("text", q)];
                                  VDict
                                    [("type", VStr "image_url");
                                     ("image_url",
                                      VDict
                                        [("url",
                                          VStr ("data:image/jpeg;base64,"
                                                +:+ decode_utf8
                                                      (base64.b64encode
                                                         data)))])] ])] ];
                  model := default (VStr "gpt-4o") (args !! "model");
                  temperature := default (VFloat 0.7) (args !! "temperature");
                  max_tokens := default (VInt 500) (args !! "max_tokens") |}
          :: rest) /\
     (forall e,
        create
          {| messages :=
               VList
                    [ VDict [("role", VStr "system");
                             ("content",
                              VStr "You are a helpful assistant that can analyze images.")];
                      VDict [("role", VStr "user");
                             ("content",
                              VList
                                [ VDict [("type", VStr "text"); ("text", q)];
                                  VDict
                                    [("type", VStr "image_url");
                                     ("image_url",
                                      VDict
                                        [("url",
                                          VStr ("data:image/jpeg;base64,"
                                                +:+ decode_utf8
                                                      (base64.b64encode
                                                         data)))])] ])] ];
             model := default (VStr "gpt-4o") (args !! "model");
             temperature := default (VFloat 0.7) (args !! "temperature");
             max_tokens := default (VInt 500) (args !! "max_tokens") |}
        = inl e ->
        isinstance_Exception e = true ->
        outcome (dispatch "ask-openai-vision" (Some args))
        = inr [ {| type := "text"; text := "Error: " +:+ str e |} ])).
Proof.
  intros Hargs Hq. split; [by apply trace_dispatch_text |]. split.
  - intros e He Hexc.
    rewrite outcome_dispatch, (dispatch_try_text _ Hargs), Hq.
    by rewrite outcome_bind, outcome_ask_openai, He, Hexc.
  - intros p data Hp Hdata. split.
    { destruct (trace_dispatch_vision args q p data Hargs Hq Hp Hdata)
        as [rest Hrest].
      exists rest. exact Hrest. }
    intros e He Hexc.
    rewrite outcome_dispatch, (dispatch_try_vision _ Hargs), Hq, Hp.
    rewrite outcome_bind, outcome_ask_openai_vision, Hdata.
    unfold vision_messages. by rewrite He, Hexc.
Qed.

(** ** The vision connector *)

(** C7. [ask_openai_vision] first reads the file at [image_path]; with its
    bytes [data] it then sends one request whose user message holds the
    text [query] and the image as the URL
    ["data:image/jpeg;base64," + b64encode(data)], the same content type
    for every [data]. *)
Theorem ask_openai_vision_inlines_image
    (q p m t mt : pyval) (data : list byte) :
  open_rb p = inr data ->
  exists rest,
    trace (ask_vision q p m t mt)
    = EvOpen p
      :: EvCreate
           {| messages :=
                VList
                  [ VDict [("role", VStr "system");
                           ("content",
                            VStr "You are a helpful assistant that can analyze images.")];
                    VDict [("role", VStr "user");
                           ("content",
                            VList
                              [ VDict [("type", VStr "text"); ("text", q)];
                                VDict
                                  [("type", VStr "image_url");
                                   ("image_url",
                                    VDict
                                      [("url",
                                        VStr ("data:image/jpeg;base64,"
                                              +:+ decode_utf8
                                                    (base64.b64encode data)))])]
                              ])] ];
              model := m; temperature := t; max_tokens := mt |}
      :: rest.
Proof.
  intros Hdata. rewrite trace_ask_openai_vision, Hdata.
  eexists. reflexivity.
Qed.

(** C8. When the vision tool is given a [query] and an [image_path] that
    cannot be read, the read raising [e], the answer is the single text
    item ["Error: " + str(e)]; the connector and the dispatcher each log
    the failure, and no request is sent to the endpoint. *)
Theorem unreadable_image_error (args : gmap string pyval) (q p : pyval) (e : exn) :
  size args ≠ 0 -> args !! "query" = Some q -> args !! "image_path" = Some p ->
  open_rb p = inl e -> isinstance_Exception e = true ->
  dispatch "ask-openai-vision" (Some args)
  = ([EvOpen p;
      EvLogError llm_logger ("Failed to query OpenAI Vision: " +:+ str e);
      EvLogError server_logger ("Tool call failed: " +:+ str e)],
     inr [ {| type := "text"; text := "Error: " +:+ str e |} ])
  /\ forall req, EvCreate req ∉ trace (dispatch "ask-openai-vision" (Some args)).
Proof.
  intros Hargs Hq Hp He Hexc.
  assert (Heq : dispatch "ask-openai-vision" (Some args)
                = ([EvOpen p;
                    EvLogError llm_logger
                      ("Failed to query OpenAI Vision: " +:+ str e);
                    EvLogError server_logger ("Tool call failed: " +:+ str e)],
                   inr [ {| type := "text"; text := "Error: " +:+ str e |} ])).
  { rewrite (Py_eta (dispatch _ _)). f_equal.
    - rewrite trace_dispatch, (dispatch_try_vision _ Hargs), Hq, Hp.
      rewrite trace_bind, outcome_bind, trace_ask_openai_vision.
      rewrite outcome_ask_openai_vision, He. simpl. by rewrite Hexc.
    - rewrite outcome_dispatch, (dispatch_try_vision _ Hargs), Hq, Hp.
      by rewrite outcome_bind, outcome_ask_openai_vision, He, Hexc. }
  split; [exact Heq |].
  intros req. rewrite Heq. simpl.
  intros H. repeat (apply elem_of_cons in H as [H | H]; [discriminate |]).
  by apply elem_of_nil in H.
Qed.

(** ** One text item, whatever happens *)

Lemma outcome_bind_inr {A B} (m : Py A) (k : A -> Py B) (b : B) :
  outcome (bind m k) = inr b ->
  exists a, outcome m = inr a /\ outcome (k a) = inr b.
Proof.
  rewrite outcome_bind. destruct (outcome m) as [e | a]; [discriminate |].
  intros H. by exists a.
Qed.

(** What the [try] suite returns is one of the two labelled replies. *)
Lemma dispatch_try_returns name arguments reply :
  outcome (dispatch_try name arguments) = inr reply ->
  exists response, reply = text_reply response \/ reply = vision_reply response.
Proof.
  unfold handle_tool_call_try.
  destruct (not_ arguments); [discriminate |].
  destruct (String.eqb name "ask-openai").
  { intros H. do 5 (apply outcome_bind_inr in H as (? & _ & H)).
    injection H as <-. eexists. left. reflexivity. }
  destruct (String.eqb name "ask-openai-vision"); [| discriminate].
  intros H. do 6 (apply outcome_bind_inr in H as (? & _ & H)).
  injection H as <-. eexists. right. reflexivity.
Qed.

(** ** Keys outside the schema *)

Lemma declared_keys_text :
  declared_keys "ask-openai" = ["query"; "model"; "temperature"; "max_tokens"].
Proof. reflexivity. Qed.

Lemma declared_keys_vision :
  declared_keys "ask-openai-vision"
  = ["query"; "image_path"; "model"; "temperature"; "max_tokens"].
Proof. reflexivity. Qed.

Lemma not_in_tool_names name :
  name ∉ tool_names <-> name ≠ "ask-openai" /\ name ≠ "ask-openai-vision".
Proof.
  unfold tool_names. simpl. rewrite !not_elem_of_cons.
  split; [intros (? & ? & _); by split |].
  intros [? ?]. repeat split; try done. by intros Hnil%elem_of_nil.
Qed.

Lemma declared_keys_unknown tool : tool ∉ tool_names -> declared_keys tool = [].
Proof.
  intros [H1 H2]%not_in_tool_names.
  apply not_eq_sym, String.eqb_neq in H1, H2.
  unfold declared_keys, find_tool, handle_list_tools.
  cbn [List.find name]. by rewrite H1, H2.
Qed.

(** C10. Two non-empty [arguments] dicts that agree on the keys declared
    by the schema of the invoked tool (some of [query], [image_path],
    [model], [temperature], [max_tokens]) give the same result and the
    same effects, whatever other keys they hold. *)
Theorem undeclared_keys_ignored
    (name : string) (args1 args2 : gmap string pyval) :
  size args1 ≠ 0 -> size args2 ≠ 0 ->
  (forall k, k ∈ declared_keys name -> args1 !! k = args2 !! k) ->
  dispatch name (Some args1) = dispatch name (Some args2)
  /\ forall k,
       k ∈ declared_keys name ->
       k ∈ ["query"; "image_path"; "model"; "temperature"; "max_tokens"].
Proof.
  intros H1 H2 Hagree.
  destruct (String.eqb_spec name "ask-openai") as [-> | Hn1].
  { split.
    - unfold handle_tool_call. f_equal.
      rewrite (dispatch_try_text _ H1), (dispatch_try_text _ H2).
      rewrite <- !Hagree by (rewrite declared_keys_text; list_elem).
      reflexivity.
    - intros k Hk. rewrite declared_keys_text in Hk.
      repeat (apply elem_of_cons in Hk as [-> | Hk]; [list_elem |]).
      by apply elem_of_nil in Hk. }
  destruct (String.eqb_spec name "ask-openai-vision") as [-> | Hn2].
  { split.
    - unfold handle_tool_call. f_equal.
      rewrite (dispatch_try_vision _ H1), (dispatch_try_vision _ H2).
      rewrite <- !Hagree by (rewrite declared_keys_vision; list_elem).
      reflexivity.
    - intros k Hk. rewrite declared_keys_vision in Hk.
      repeat (apply elem_of_cons in Hk as [-> | Hk]; [list_elem |]).
      by apply elem_of_nil in Hk. }
  assert (Hn : name ∉ tool_names) by (by apply not_in_tool_names).
  split.
  - unfold handle_tool_call.
    by rewrite (dispatch_try_unknown _ _ H1 Hn), (dispatch_try_unknown _ _ H2 Hn).
  - intros k Hk. rewrite (declared_keys_unknown _ Hn) in Hk.
    by apply elem_of_nil in Hk.
Qed.

End Dispatch.

(** ** The stubs raise only [Exception]s *)

Lemma raises_Exception_no_such_file : raises_Exception no_such_file.
Proof. intros path e. destruct path; intros [= <-]; reflexivity. Qed.

Lemma raises_Exception_answering answer : raises_Exception (answering answer).
Proof. intros req e H. discriminate H. Qed.

Lemma raises_Exception_rejecting msg : raises_Exception (rejecting msg).
Proof. intros req e [= <-]. reflexivity. Qed.

(** ** The theorems at the scenarios *)

Lemma bogus_not_declared : "bogus" ∉ tool_names.
Proof. apply not_in_tool_names. split; discriminate. Qed.

(** C2 at its scenario, run as written: the empty dict is answered before
    the name is looked at, and the reply does not name the tool. *)
Lemma unknown_tool_empty_arguments_counterexample :
  ("bogus" ∉ tool_names)
  /\ outcome (handle_tool_call no_such_file (answering "4") "bogus" (Some ∅))
     = inr [ {| type := "text"; text := "Error: No arguments provided" |} ]
  /\ outcome (handle_tool_call no_such_file (answering "4") "bogus" (Some ∅))
     ≠ inr [ {| type := "text"; text := "Error: Unknown tool: bogus" |} ]
  /\ contains "bogus" "Error: No arguments provided" = false.
Proof.
  split; [exact bogus_not_declared |].
  split; [reflexivity |]. split; [discriminate | reflexivity].
Qed.

(** C2 as amended, at the unknown name with a non-empty dict, and at an
    unknown and a declared name with falsy arguments. *)
Lemma unknown_tool_error_witness :
  handle_tool_call no_such_file (answering "4") "bogus"
    (Some {[ "x" := VInt 1 ]})
  = ([EvLogError server_logger "Tool call failed: Unknown tool: bogus"],
     inr [ {| type := "text"; text := "Error: Unknown tool: bogus" |} ])
  /\ handle_tool_call no_such_file (answering "4") "bogus" None
     = ([EvLogError server_logger "Tool call failed: No arguments provided"],
        inr [ {| type := "text"; text := "Error: No arguments provided" |} ])
  /\ handle_tool_call no_such_file (answering "4") "ask-openai" (Some ∅)
     = ([EvLogError server_logger "Tool call failed: No arguments provided"],
        inr [ {| type := "text"; text := "Error: No arguments provided" |} ]).
Proof.
  destruct (unknown_tool_error no_such_file (answering "4"))
    as [Hfull Hfalsy].
  split; [| split].
  - apply (Hfull "bogus" {[ "x" := VInt 1 ]}).
    + exact bogus_not_declared.
    + vm_compute. discriminate.
  - apply (Hfalsy "bogus" None). left. reflexivity.
  - apply (Hfalsy "ask-openai" (Some ∅)). right. reflexivity.
Defined.


(** C5 at a text call without [query] and a vision call without
    [image_path]. *)
Lemma missing_required_argument_witness :
  handle_tool_call no_such_file (answering "4") "ask-openai"
    (Some {[ "model" := VStr "gpt-4" ]})
  = ([EvLogError server_logger "Tool call failed: 'query'"],
     inr [ {| type := "text"; text := "Error: 'query'" |} ])
  /\ handle_tool_call no_such_file (answering "4") "ask-openai-vision"
       (Some {[ "query" := VStr "what is this?" ]})
     = ([EvLogError server_logger "Tool call failed: 'image_path'"],
        inr [ {| type := "text"; text := "Error: 'image_path'" |} ]).
Proof.
  split.
  - refine (proj1 (missing_required_argument no_such_file (answering "4")
                     {[ "model" := VStr "gpt-4" ]} _) _).
    + vm_compute. discriminate.
    + reflexivity.
  - refine (proj1 (proj2 (proj2
              (missing_required_argument no_such_file (answering "4")
                 {[ "query" := VStr "what is this?" ]} _))) _ _).
    + vm_compute. discriminate.
    + by eexists.
    + reflexivity.
Defined.

Example out_of_range_is_declared :
  declared "ask-openai" "temperature" "maximum" = Some (VInt 2)
  /\ declared "ask-openai" "model" "enum"
     = Some (VList [VStr "gpt-4"; VStr "gpt-3.5-turbo"]).
Proof. by repeat split. Qed.

(** C6 at a temperature of 99 and a model outside the enumeration, with
    an endpoint that rejects the request; and at a vision call with the
    same values. *)
Lemma arguments_forwarded_unchanged_witness :
  (exists rest,
     trace (handle_tool_call (one_file "/logo.png" png_magic)
              (rejecting "Error code: 400") "ask-openai"
              (Some out_of_range_arguments))
     = EvCreate
         {| messages :=
              VList [ VDict [("role", VStr "system");
                             ("content", VStr "You are a helpful assistant.")];
                      VDict [("role", VStr "user"); ("content", VStr "hi")] ];
            model := VStr "davinci";
            temperature := VInt 99;
            max_tokens := VInt 500 |}
       :: rest)
  /\ outcome (handle_tool_call (one_file "/logo.png" png_magic)
                (rejecting "Error code: 400") "ask-openai"
                (Some out_of_range_arguments))
     = inr [ {| type := "text"; text := "Error: Error code: 400" |} ]
  /\ (exists rest,
        trace (handle_tool_call (one_file "/logo.png" png_magic)
                 (rejecting "Error code: 400") "ask-openai-vision"
                 (Some (<[ "image_path" := VStr "/logo.png" ]>
                          out_of_range_arguments)))
        = EvOpen (VStr "/logo.png")
          :: EvCreate
               {| messages :=
                    VList
                      [ VDict [("role", VStr "system");
                               ("content",
                                VStr "You are a helpful assistant that can analyze images.")];
                        VDict [("role", VStr "user");
                               ("content",
                                VList
                                  [ VDict [("type", VStr "text");
                                           ("text", VStr "hi")];
                                    VDict
                                      [("type", VStr "image_url");
                                       ("image_url",
                                        VDict
                                          [("url",
                                            VStr "data:image/jpeg;base64,iVBORw0KGgo=")])]
                                  ])] ];
                  model := VStr "davinci";
                  temperature := VInt 99;
                  max_tokens := VInt 500 |}
          :: rest)
  /\ outcome (handle_tool_call (one_file "/logo.png" png_magic)
                (rejecting "Error code: 400") "ask-openai-vision"
                (Some (<[ "image_path" := VStr "/logo.png" ]>
                         out_of_range_arguments)))
     = inr [ {| type := "text"; text := "Error: Error code: 400" |} ].
Proof.
  destruct (arguments_forwarded_unchanged (one_file "/logo.png" png_magic)
              (rejecting "Error code: 400") out_of_range_arguments (VStr "hi"))
    as (Htrace & Hreject & _).
  { vm_compute. discriminate. }
  { reflexivity. }
  destruct (arguments_forwarded_unchanged (one_file "/logo.png" png_magic)
              (rejecting "Error code: 400")
              (<[ "image_path" := VStr "/logo.png" ]> out_of_range_arguments)
              (VStr "hi"))
    as (_ & _ & Hvision).
  { vm_compute. discriminate. }
  { reflexivity. }
  destruct (Hvision (VStr "/logo.png") png_magic) as [Hvtrace Hvreject].
  { reflexivity. }
  { reflexivity. }
  split; [exact Htrace |]. split.
  { apply (Hreject (Raised true "Error code: 400")); reflexivity. }
  split; [exact Hvtrace |].
  apply (Hvreject (Raised true "Error code: 400")); reflexivity.
Defined.

(** C7 at a PNG file: the URL still says [image/jpeg]. *)
Lemma ask_openai_vision_inlines_image_witness :
  exists rest,
    trace (ask_openai_vision (one_file "/logo.png" png_magic) (answering "a logo")
             (VStr "what is this?") (VStr "/logo.png") (VStr "gpt-4o")
             (VFloat 0.7) (VInt 500))
    = EvOpen (VStr "/logo.png")
      :: EvCreate
           {| messages :=
                VList
                  [ VDict [("role", VStr "system");
                           ("content",
                            VStr "You are a helpful assistant that can analyze images.")];
                    VDict [("role", VStr "user");
                           ("content",
                            VList
                              [ VDict [("type", VStr "text");
                                       ("text", VStr "what is this?")];
                                VDict
                                  [("type", VStr "image_url");
                                   ("image_url",
                                    VDict
                                      [("url",
                                        VStr "data:image/jpeg;base64,iVBORw0KGgo=")])]
                              ])] ];
              model := VStr "gpt-4o";
              temperature := VFloat 0.7;
              max_tokens := VInt 500 |}
      :: rest.
Proof.
  apply (ask_openai_vision_inlines_image (one_file "/logo.png" png_magic)
           (answering "a logo") (VStr "what is this?") (VStr "/logo.png")
           (VStr "gpt-4o") (VFloat 0.7) (VInt 500) png_magic).
  reflexivity.
Defined.

(** C8 at the scenario of the missing image. *)
Lemma unreadable_image_error_witness :
  handle_tool_call no_such_file (answering "4") "ask-openai-vision"
    (Some {[ "query" := VStr "what is this?";
             "image_path" := VStr "/missing.jpg" ]})
  = ([EvOpen (VStr "/missing.jpg");
      EvLogError llm_logger
        "Failed to query OpenAI Vision: [Errno 2] No such file or directory: '/missing.jpg'";
      EvLogError server_logger
        "Tool call failed: [Errno 2] No such file or directory: '/missing.jpg'"],
     inr [ {| type := "text";
              text := "Error: [Errno 2] No such file or directory: '/missing.jpg'" |} ]).
Proof.
  refine (proj1 (unreadable_image_error no_such_file (answering "4")
                   {[ "query" := VStr "what is this?";
                      "image_path" := VStr "/missing.jpg" ]}
                   (VStr "what is this?") (VStr "/missing.jpg")
                   (Raised true
                      "[Errno 2] No such file or directory: '/missing.jpg'")
                   _ _ _ _ _)).
  - vm_compute. discriminate.
  - reflexivity.
  - reflexivity.
  - reflexivity.
  - reflexivity.
Defined.

(** C10 at two dicts that differ in an undeclared key. *)
Lemma undeclared_keys_ignored_witness :
  handle_tool_call no_such_file (answering "4") "ask-openai"
    (Some {[ "query" := VStr "2+2?" ]})
  = handle_tool_call no_such_file (answering "4") "ask-openai"
      (Some {[ "query" := VStr "2+2?"; "verbose" := VBool true ]}).
Proof.
  refine (proj1 (undeclared_keys_ignored no_such_file (answering "4")
                   "ask-openai" {[ "query" := VStr "2+2?" ]}
                   {[ "query" := VStr "2+2?"; "verbose" := VBool true ]}
                   _ _ _)).
  - vm_compute. discriminate.
  - vm_compute. discriminate.
  - intros k Hk. rewrite declared_keys_text in Hk.
    repeat (apply elem_of_cons in Hk as [-> | Hk]; [reflexivity |]).
    by apply elem_of_nil in Hk.
Defined.

(** ** Every run of the dispatcher *)

Section Coverage.

Variable open_rb : pyval -> exn + list byte.
Variable create : request -> exn + ChatCompletion.

Abbreviation ask_text := (ask_openai create).
Abbreviation ask_vision := (ask_openai_vision open_rb create).
Abbreviation dispatch_try := (handle_tool_call_try open_rb create).
Abbreviation dispatch := (handle_tool_call open_rb create).

(** The text tool, run to its end. *)
Lemma dispatch_text_run (args : gmap string pyval) (q : pyval) :
  size args ≠ 0 -> args !! "query" = Some q ->
  dispatch "ask-openai" (Some args)
  = after_request [EvCreate (text_request args q)] "Failed to query OpenAI: "
      text_reply (create (text_request args q)).
Proof.
  intros Hargs Hq. rewrite (Py_eta (dispatch _ _)).
  rewrite trace_dispatch, outcome_dispatch, (dispatch_try_text _ _ _ Hargs), Hq.
  rewrite trace_bind, outcome_bind, trace_ask_openai, outcome_ask_openai.
  fold (text_request args q). unfold after_request.
  destruct (create (text_request args q)) as [e | r]; simpl.
  - by destruct (isinstance_Exception e).
  - by destruct (choices r) as [[| ? ?] |].
Qed.

(** The vision tool, run to its end. *)
Lemma dispatch_vision_run (args : gmap string pyval) (q p : pyval) :
  size args ≠ 0 -> args !! "query" = Some q -> args !! "image_path" = Some p ->
  dispatch "ask-openai-vision" (Some args)
  = match open_rb p with
    | inl e =>
        if isinstance_Exception e
        then ([EvOpen p;
               EvLogError llm_logger
                 ("Failed to query OpenAI Vision: " +:+ str e);
               EvLogError server_logger ("Tool call failed: " +:+ str e)],
              inr (error_reply e))
        else ([EvOpen p], inl e)
    | inr data =>
        after_request [EvOpen p; EvCreate (vision_request args q data)]
          "Failed to query OpenAI Vision: " vision_reply
          (create (vision_request args q data))
    end.
Proof.
  intros Hargs Hq Hp. rewrite (Py_eta (dispatch _ _)).
  rewrite trace_dispatch, outcome_dispatch.
  rewrite (dispatch_try_vision _ _ _ Hargs), Hq, Hp.
  rewrite trace_bind, outcome_bind, trace_ask_openai_vision.
  rewrite outcome_ask_openai_vision.
  destruct (open_rb p) as [e | data]; simpl.
  - by destruct (isinstance_Exception e).
  - fold (vision_request args q data). unfold after_request.
    destruct (create (vision_request args q data)) as [e | r]; simpl.
    + by destruct (isinstance_Exception e).
    + by destruct (choices r) as [[| ? ?] |].
Qed.

(** The guard on [arguments], for every name. *)
Lemma dispatch_falsy_run name (arguments : option (gmap string pyval)) :
  arguments = None \/ arguments = Some ∅ ->
  dispatch name arguments
  = ([EvLogError server_logger "Tool call failed: No arguments provided"],
     inr (error_reply (ValueError "No arguments provided"))).
Proof.
  intros Ha%not_true_iff. unfold handle_tool_call.
  by rewrite (dispatch_try_falsy _ _ _ _ Ha).
Qed.

Lemma dispatch_unknown_run name (args : gmap string pyval) :
  size args ≠ 0 -> name ∉ tool_names ->
  dispatch name (Some args)
  = ([EvLogError server_logger ("Tool call failed: Unknown tool: " +:+ name)],
     inr (error_reply (ValueError ("Unknown tool: " +:+ name)))).
Proof.
  intros Hargs Hn. unfold handle_tool_call.
  by rewrite (dispatch_try_unknown _ _ _ _ Hargs Hn).
Qed.

Lemma dispatch_text_no_query (args : gmap string pyval) :
  size args ≠ 0 -> args !! "query" = None ->
  dispatch "ask-openai" (Some args)
  = ([EvLogError server_logger "Tool call failed: 'query'"],
     inr (error_reply (KeyError "query"))).
Proof.
  intros Hargs Hq. unfold handle_tool_call.
  by rewrite (dispatch_try_text _ _ _ Hargs), Hq.
Qed.

Lemma dispatch_vision_no_query (args : gmap string pyval) :
  size args ≠ 0 -> args !! "query" = None ->
  dispatch "ask-openai-vision" (Some args)
  = ([EvLogError server_logger "Tool call failed: 'query'"],
     inr (error_reply (KeyError "query"))).
Proof.
  intros Hargs Hq. unfold handle_tool_call.
  by rewrite (dispatch_try_vision _ _ _ Hargs), Hq.
Qed.

Lemma dispatch_vision_no_image_path (args : gmap string pyval) (q : pyval) :
  size args ≠ 0 -> args !! "query" = Some q -> args !! "image_path" = None ->
  dispatch "ask-openai-vision" (Some args)
  = ([EvLogError server_logger "Tool call failed: 'image_path'"],
     inr (error_reply (KeyError "image_path"))).
Proof.
  intros Hargs Hq Hp. unfold handle_tool_call.
  by rewrite (dispatch_try_vision _ _ _ Hargs), Hq, Hp.
Qed.

(** [arguments] is falsy or a dict that holds something. *)
Lemma falsy_or_dict (arguments : option (gmap string pyval)) :
  (arguments = None \/ arguments = Some ∅)
  \/ exists args, arguments = Some args /\ size args ≠ 0.
Proof.
  destruct arguments as [args |]; [| by left; left].
  destruct (decide (size args = 0)) as [H0 | Hne].
  - left. right. f_equal. by apply map_size_empty_iff.
  - right. by exists args.
Qed.

Lemma name_cases (nm : string) :
  nm = "ask-openai" \/ nm = "ask-openai-vision" \/ nm ∉ tool_names.
Proof.
  destruct (String.eqb_spec nm "ask-openai") as [-> | H1]; [by left |].
  destruct (String.eqb_spec nm "ask-openai-vision") as [-> | H2];
    [by right; left |].
  right. right. by apply not_in_tool_names.
Qed.

(** Every run of [handle_tool_call name (Some args)] on a dict that holds
    something, one goal for each. *)
Ltac dict_runs name args Hargs :=
  let Hname := fresh "Hname" in
  let q := fresh "q" in
  let p := fresh "p" in
  let Hq := fresh "Hq" in
  let Hp := fresh "Hp" in
  destruct (name_cases name) as [-> | [-> | Hname]];
  [ destruct (args !! "query") as [q |] eqn:Hq;
    [ rewrite (dispatch_text_run args q Hargs Hq)
    | rewrite (dispatch_text_no_query args Hargs Hq) ]
  | destruct (args !! "query") as [q |] eqn:Hq;
    [ destruct (args !! "image_path") as [p |] eqn:Hp;
      [ rewrite (dispatch_vision_run args q p Hargs Hq Hp)
      | rewrite (dispatch_vision_no_image_path args q Hargs Hq Hp) ]
    | rewrite (dispatch_vision_no_query args Hargs Hq) ]
  | rewrite (dispatch_unknown_run name args Hargs Hname) ].

(** Every run of [handle_tool_call name arguments], one goal for each. *)
Ltac dispatch_runs name arguments :=
  let args := fresh "args" in
  let Hargs := fresh "Hargs" in
  let Hfalsy := fresh "Hfalsy" in
  destruct (falsy_or_dict arguments) as [Hfalsy | (args & -> & Hargs)];
  [ rewrite (dispatch_falsy_run name arguments Hfalsy)
  | dict_runs name args Hargs ].

(** The answers of the collaborators in such a run, one goal for each. *)
Ltac collaborator_answers :=
  unfold after_request;
  repeat match goal with
    | |- context [match open_rb ?p with _ => _ end] =>
        let e := fresh "e" in
        let data := fresh "data" in
        let Hopen := fresh "Hopen" in
        destruct (open_rb p) as [e | data] eqn:Hopen
    | |- context [match create ?req with _ => _ end] =>
        let e := fresh "e" in
        let r := fresh "r" in
        let Hcreate := fresh "Hcreate" in
        destruct (create req) as [e | r] eqn:Hcreate
    | |- context [match choices ?r with _ => _ end] =>
        let Hchoices := fresh "Hchoices" in
        destruct (choices r) as [[| ? ?] |] eqn:Hchoices
    | |- context [if isinstance_Exception ?e then _ else _] =>
        let Hexc := fresh "Hexc" in
        destruct (isinstance_Exception e) eqn:Hexc;
        try discriminate Hexc
    end.

(** ** The error boundary *)

(** C1, as the code has it. For every tool name and every [arguments]
    (a dict, an empty dict or [None]), [handle_tool_call] returns a list
    of content items, unless the file read or the call of the client
    raises an exception that does not derive from [Exception], which
    alone leaves the function.  Every exception [e] deriving from
    [Exception] that is raised inside the [try] suite (unknown tool,
    missing key, unreadable image, failed request) becomes the single
    text item ["Error: " + str(e)].  So with collaborators that raise only
    [Exception]s the function always returns. *)
Theorem handle_tool_call_error_boundary
    (name : string) (arguments : option (gmap string pyval)) :
  ((exists reply, outcome (dispatch name arguments) = inr reply)
   \/ (exists e,
         outcome (dispatch name arguments) = inl e
         /\ isinstance_Exception e = false
         /\ ((exists p, open_rb p = inl e) \/ (exists req, create req = inl e))))
  /\ (forall e,
        outcome (dispatch_try name arguments) = inl e ->
        isinstance_Exception e = true ->
        outcome (dispatch name arguments)
        = inr [ {| type := "text"; text := "Error: " +:+ str e |} ])
  /\ (raises_Exception open_rb -> raises_Exception create ->
      exists reply, outcome (dispatch name arguments) = inr reply).
Proof.
  assert (Hruns :
    (exists reply, outcome (dispatch name arguments) = inr reply)
    \/ (exists e,
          outcome (dispatch name arguments) = inl e
          /\ isinstance_Exception e = false
          /\ ((exists p, open_rb p = inl e)
              \/ (exists req, create req = inl e)))).
  { dispatch_runs name arguments; collaborator_answers; simpl;
      first [ left; eexists; reflexivity
            | right; eexists; split; [reflexivity |]; split; [assumption |];
              eauto ]. }
  split; [exact Hruns |]. split.
  - intros e He Hexc. by rewrite outcome_dispatch, He, Hexc.
  - intros Hopen Hcreate.
    destruct Hruns as [Hreply | (e & _ & Hsignal & [[p Hp] | [req Hreq]])].
    + exact Hreply.
    + rewrite (Hopen p e Hp) in Hsignal. discriminate Hsignal.
    + rewrite (Hcreate req e Hreq) in Hsignal. discriminate Hsignal.
Qed.

(** C9, as the code has it. Whatever [handle_tool_call] returns is a list
    of exactly one item of type ["text"]: if the [try] suite returned, the
    item is the one it returned and its text does not start with
    ["Error: "]; if the suite raised [e], the text is
    ["Error: " + str(e)].  The item has no other field, so the prefix is
    all that tells the two apart.  When the function does not return, what
    leaves it does not derive from [Exception]. *)
Theorem call_tool_returns_one_text_item
    (name : string) (arguments : option (gmap string pyval)) :
  match outcome (dispatch name arguments) with
  | inr reply =>
      exists c,
        reply = [c]
        /\ type c = "text"
        /\ match outcome (dispatch_try name arguments) with
           | inl e => text c = "Error: " +:+ str e /\ status_of c = error
           | inr returned => returned = [c] /\ status_of c = ok
           end
  | inl e => isinstance_Exception e = false
  end.
Proof.
  rewrite outcome_dispatch.
  destruct (outcome (dispatch_try name arguments)) as [e | reply] eqn:Htry.
  - destruct (isinstance_Exception e) eqn:Hexc; [| exact Hexc].
    eexists. split; [reflexivity |]. split; [reflexivity |].
    split; [reflexivity |]. unfold status_of. cbn [text].
    by rewrite prefix_app.
  - apply dispatch_try_returns in Htry as [response [-> | ->]];
      eexists; (split; [reflexivity |]); by repeat split.
Qed.

(** ** No loop, no stray effect *)

(** X1. One call of [handle_tool_call] calls
    [client.chat.completions.create] at most once and opens at most one
    file, whatever the name and the arguments and however the
    collaborators answer: neither the dispatcher nor the connectors loop.
    (What the client does within its one call is not counted.) *)
Theorem at_most_one_request_and_read
    (name : string) (arguments : option (gmap string pyval)) :
  length (requests (trace (dispatch name arguments))) <= 1
  /\ length (reads (trace (dispatch name arguments))) <= 1.
Proof.
  dispatch_runs name arguments; collaborator_answers; simpl; lia.
Qed.

(** X2. Only the vision tool touches the file system: under any other
    name no file is opened. *)
Theorem only_vision_reads_files
    (name : string) (arguments : option (gmap string pyval)) :
  name ≠ "ask-openai-vision" ->
  reads (trace (dispatch name arguments)) = [].
Proof.
  intros Hne. dispatch_runs name arguments; try done;
    collaborator_answers; reflexivity.
Qed.

(** X3. Every request that reaches the endpoint is built from the
    arguments: under the text tool it is [text_request] of the dict and its
    query; under the vision tool it is [vision_request] of the dict, its
    query and the bytes that the file at [image_path] gave. No other name
    and no falsy [arguments] sends anything. *)
Theorem requests_come_from_arguments
    (name : string) (arguments : option (gmap string pyval)) (req : request) :
  req ∈ requests (trace (dispatch name arguments)) ->
  exists args q,
    arguments = Some args /\ args !! "query" = Some q
    /\ ((name = "ask-openai" /\ req = text_request args q)
        \/ (name = "ask-openai-vision"
            /\ exists p data,
                 args !! "image_path" = Some p /\ open_rb p = inr data
                 /\ req = vision_request args q data)).
Proof.
  dispatch_runs name arguments; collaborator_answers; simpl;
    intros Hin;
    repeat (apply elem_of_cons in Hin as [-> | Hin]);
    try (by apply elem_of_nil in Hin);
    eexists _, _; (split; [reflexivity |]); (split; [eassumption |]);
    first [ left; split; reflexivity
          | right; split; [reflexivity |]; eexists _, _; by repeat split ].
Qed.

(** ** What is logged, what escapes, what a caller can read *)

(** X4. An error item is never returned without a record: when the result
    is the item ["Error: " + str(e)], the last record logged is the
    dispatcher's, ["Tool call failed: " + str(e)], and any record before it
    comes from the connector's logger and ends with the same [str(e)]. *)
Theorem error_items_are_logged
    (name : string) (arguments : option (gmap string pyval)) (e : exn) :
  outcome (dispatch name arguments) = inr (error_reply e) ->
  exists before,
    log_records (trace (dispatch name arguments))
    = before ++ [(server_logger, "Tool call failed: " +:+ str e)]
    /\ forall logger msg,
         (logger, msg) ∈ before ->
         logger = llm_logger
         /\ (msg = "Failed to query OpenAI: " +:+ str e
             \/ msg = "Failed to query OpenAI Vision: " +:+ str e).
Proof.
  dispatch_runs name arguments; collaborator_answers; simpl;
    intros Hout; try discriminate Hout;
    apply (inj inr), (inj (fun c => [c])) in Hout;
    apply (f_equal text) in Hout; cbn [text] in Hout;
    try (exfalso; clear -Hout; cbv in Hout; discriminate Hout);
    apply string_app_inj_l in Hout; rewrite <- Hout;
    first [ exists []; split; [reflexivity |];
            intros logger msg Hin; by apply elem_of_nil in Hin
          | eexists [_]; split; [reflexivity |];
            intros logger msg Hin;
            apply elem_of_cons in Hin as [Hin | Hin];
            [| by apply elem_of_nil in Hin];
            injection Hin as -> ->;
            split; [reflexivity |]; auto ].
Qed.

(** X5. A call that returns an answer, or that lets an exception out,
    logs nothing: records are written only on the way to an error item. *)
Theorem only_error_items_log
    (name : string) (arguments : option (gmap string pyval)) :
  (forall e, outcome (dispatch name arguments) ≠ inr (error_reply e)) ->
  log_records (trace (dispatch name arguments)) = [].
Proof.
  intros Hno. revert Hno.
  dispatch_runs name arguments; collaborator_answers; simpl; intros Hno;
    try reflexivity;
    by (exfalso; eapply Hno).
Qed.

(** X6. What leaves [handle_tool_call] as an exception was raised by a
    collaborator, the file system or the endpoint, and does not derive
    from [Exception]. *)
Theorem escaping_exceptions_are_signals
    (name : string) (arguments : option (gmap string pyval)) (e : exn) :
  outcome (dispatch name arguments) = inl e ->
  isinstance_Exception e = false
  /\ ((exists p, open_rb p = inl e) \/ (exists req, create req = inl e)).
Proof.
  dispatch_runs name arguments; collaborator_answers; simpl;
    intros Hout; try discriminate Hout; injection Hout as <-;
    (split; [assumption |]); eauto.
Qed.

(** X7. The texts a caller can receive: an answer under one of the two
    labels, or ["Error: "] followed by one of the four diagnostics of the
    dispatcher itself, or by the [str] of what the file read raised, of
    what the call of the client raised, or of what reading
    [response.choices[0].message.content] raised on the completion that
    the client returned. *)
Theorem every_reply_text
    (name : string) (arguments : option (gmap string pyval))
    (reply : list TextContent) :
  outcome (dispatch name arguments) = inr reply ->
  (exists answer,
     reply = [ {| type := "text";
                  text := "OpenAI Response:" +:+ LF +:+ format answer |} ]
     \/ reply = [ {| type := "text";
                     text := "OpenAI Vision Response:" +:+ LF
                             +:+ format answer |} ])
  \/ (exists diagnostic,
        reply = [ {| type := "text"; text := "Error: " +:+ diagnostic |} ]
        /\ (diagnostic = "No arguments provided"
            \/ diagnostic = "Unknown tool: " +:+ name
            \/ diagnostic = "'query'"
            \/ diagnostic = "'image_path'"
            \/ (exists p e, open_rb p = inl e /\ diagnostic = str e)
            \/ (exists req e, create req = inl e /\ diagnostic = str e)
            \/ (exists req response e,
                  create req = inr response
                  /\ outcome (read_answer response) = inl e
                  /\ diagnostic = str e))).
Proof.
  dispatch_runs name arguments; collaborator_answers; simpl;
    intros Hout; try discriminate Hout; injection Hout as <-;
    first [ left; eexists; left; reflexivity
          | left; eexists; right; reflexivity
          | right; eexists; split; [reflexivity |];
            first [ solve [eauto 15]
                  | do 6 right; eexists _, _, _;
                    split; [eassumption |];
                    unfold read_answer; rewrite outcome_bind;
                    match goal with H : choices _ = _ |- _ => rewrite H end;
                    split; reflexivity ] ].
Qed.

(** ** The runs, one by one *)

(** X8. The text tool on an endpoint that answers: the only effect is the
    one request, nothing is logged, and the reply is the label followed by
    the content of the first choice; further choices are not read. *)
Theorem text_tool_answer
    (args : gmap string pyval) (q : pyval) (response : ChatCompletion)
    (choice : Choice) (others : list Choice) :
  size args ≠ 0 -> args !! "query" = Some q ->
  create (text_request args q) = inr response ->
  choices response = Some (choice :: others) ->
  dispatch "ask-openai" (Some args)
  = ([EvCreate (text_request args q)],
     inr [ {| type := "text";
              text := "OpenAI Response:" +:+ LF
                      +:+ format (content (message choice)) |} ]).
Proof.
  intros Hargs Hq Hcreate Hchoices.
  rewrite (dispatch_text_run args q Hargs Hq). unfold after_request.
  by rewrite Hcreate, Hchoices.
Qed.

(** X9. The vision tool on a readable file and an endpoint that answers:
    the file is read, then the one request is sent, nothing is logged, and
    the reply is the vision label followed by the content of the first
    choice. *)
Theorem vision_tool_answer
    (args : gmap string pyval) (q p : pyval) (data : list byte)
    (response : ChatCompletion) (choice : Choice) (others : list Choice) :
  size args ≠ 0 -> args !! "query" = Some q -> args !! "image_path" = Some p ->
  open_rb p = inr data ->
  create (vision_request args q data) = inr response ->
  choices response = Some (choice :: others) ->
  dispatch "ask-openai-vision" (Some args)
  = ([EvOpen p; EvCreate (vision_request args q data)],
     inr [ {| type := "text";
              text := "OpenAI Vision Response:" +:+ LF
                      +:+ format (content (message choice)) |} ]).
Proof.
  intros Hargs Hq Hp Hopen Hcreate Hchoices.
  rewrite (dispatch_vision_run args q p Hargs Hq Hp), Hopen.
  unfold after_request. by rewrite Hcreate, Hchoices.
Qed.

(** X10. A completion whose list of choices is empty is not an answer:
    [choices[0]]
    raises [IndexError], the connector and the dispatcher both log it, and
    the reply is ["Error: list index out of range"]. *)
Theorem empty_choices_error
    (args : gmap string pyval) (q : pyval) (response : ChatCompletion) :
  size args ≠ 0 -> args !! "query" = Some q ->
  create (text_request args q) = inr response ->
  choices response = Some [] ->
  dispatch "ask-openai" (Some args)
  = ([EvCreate (text_request args q);
      EvLogError llm_logger "Failed to query OpenAI: list index out of range";
      EvLogError server_logger "Tool call failed: list index out of range"],
     inr [ {| type := "text"; text := "Error: list index out of range" |} ]).
Proof.
  intros Hargs Hq Hcreate Hchoices.
  rewrite (dispatch_text_run args q Hargs Hq). unfold after_request.
  by rewrite Hcreate, Hchoices.
Qed.

(** X25. A completion whose [choices] is [None] is not an answer either:
    [choices[0]] raises [TypeError], the connector and the dispatcher both
    log it, and the reply is
    ["Error: 'NoneType' object is not subscriptable"]. *)
Theorem missing_choices_error
    (args : gmap string pyval) (q : pyval) (response : ChatCompletion) :
  size args ≠ 0 -> args !! "query" = Some q ->
  create (text_request args q) = inr response ->
  choices response = None ->
  dispatch "ask-openai" (Some args)
  = ([EvCreate (text_request args q);
      EvLogError llm_logger
        "Failed to query OpenAI: 'NoneType' object is not subscriptable";
      EvLogError server_logger
        "Tool call failed: 'NoneType' object is not subscriptable"],
     inr [ {| type := "text";
              text := "Error: 'NoneType' object is not subscriptable" |} ]).
Proof.
  intros Hargs Hq Hcreate Hchoices.
  rewrite (dispatch_text_run args q Hargs Hq). unfold after_request.
  by rewrite Hcreate, Hchoices.
Qed.

(** X11. A first choice whose content is [None] is reported as an answer:
    the reply is the ok item ["OpenAI Response:\nNone"], and nothing is
    logged. *)
Theorem null_content_reads_as_answer
    (args : gmap string pyval) (q : pyval) (response : ChatCompletion)
    (choice : Choice) (others : list Choice) :
  size args ≠ 0 -> args !! "query" = Some q ->
  create (text_request args q) = inr response ->
  choices response = Some (choice :: others) ->
  content (message choice) = None ->
  dispatch "ask-openai" (Some args)
  = ([EvCreate (text_request args q)],
     inr [ {| type := "text"; text := "OpenAI Response:" +:+ LF +:+ "None" |} ])
  /\ status_of
       {| type := "text"; text := "OpenAI Response:" +:+ LF +:+ "None" |}
     = ok.
Proof.
  intros Hargs Hq Hcreate Hchoices Hnone. split; [| reflexivity].
  rewrite (dispatch_text_run args q Hargs Hq). unfold after_request.
  by rewrite Hcreate, Hchoices, Hnone.
Qed.

(** X12. When the call of [create] raises an [Exception], the failure
    is logged twice, by the connector and then by the dispatcher, with the
    same diagnostic that the reply carries, and the code does not call
    [create] a second time. *)
Theorem rejected_request_is_logged_twice
    (args : gmap string pyval) (q : pyval) (e : exn) :
  size args ≠ 0 -> args !! "query" = Some q ->
  isinstance_Exception e = true ->
  (create (text_request args q) = inl e ->
   dispatch "ask-openai" (Some args)
   = ([EvCreate (text_request args q);
       EvLogError llm_logger ("Failed to query OpenAI: " +:+ str e);
       EvLogError server_logger ("Tool call failed: " +:+ str e)],
      inr [ {| type := "text"; text := "Error: " +:+ str e |} ])) /\
  (forall p data,
     args !! "image_path" = Some p -> open_rb p = inr data ->
     create (vision_request args q data) = inl e ->
     dispatch "ask-openai-vision" (Some args)
     = ([EvOpen p; EvCreate (vision_request args q data);
         EvLogError llm_logger ("Failed to query OpenAI Vision: " +:+ str e);
         EvLogError server_logger ("Tool call failed: " +:+ str e)],
        inr [ {| type := "text"; text := "Error: " +:+ str e |} ])).
Proof.
  intros Hargs Hq Hexc. split.
  - intros Hcreate.
    rewrite (dispatch_text_run args q Hargs Hq). unfold after_request.
    by rewrite Hcreate, Hexc.
  - intros p data Hp Hopen Hcreate.
    rewrite (dispatch_vision_run args q p Hargs Hq Hp), Hopen.
    unfold after_request. by rewrite Hcreate, Hexc.
Qed.

(** ** The catalog and the dispatcher *)

Lemma assoc_cons (k k' : string) (v : pyval) (d : list (string * pyval)) :
  assoc k (VDict ((k', v) :: d))
  = if String.eqb k' k then Some v else assoc k (VDict d).
Proof. unfold assoc. simpl. by destruct (String.eqb k' k). Qed.

Lemma assoc_nil (k : string) : assoc k (VDict []) = None.
Proof. reflexivity. Qed.

(** The schema of a declared tool, laid open for a lookup by a variable
    key. *)
Ltac open_schema tool :=
  unfold declared, declared_keys, required;
  let t := fresh "t" in
  let Ht := fresh "Ht" in
  destruct (find_tool tool) as [t |] eqn:Ht;
  vm_compute in Ht; [injection Ht as <- | discriminate Ht];
  cbn [mbind option_bind inputSchema];
  rewrite !assoc_cons; cbn [String.eqb Ascii.eqb Bool.eqb];
  cbn [mbind option_bind];
  rewrite ?assoc_cons, ?assoc_nil.

Lemma declared_default_text (arg : string) (v : pyval) :
  declared "ask-openai" arg "default" = Some v ->
  (arg = "model" /\ v = VStr "gpt-4")
  \/ (arg = "temperature" /\ v = VFloat 0.7)
  \/ (arg = "max_tokens" /\ v = VInt 500).
Proof.
  open_schema "ask-openai".
  repeat match goal with
    | |- context [String.eqb ?k arg] =>
        destruct (String.eqb_spec k arg) as [<- | ?]
    end; cbn; intros [= <-]; auto.
Qed.

Lemma declared_default_vision (arg : string) (v : pyval) :
  declared "ask-openai-vision" arg "default" = Some v ->
  (arg = "model" /\ v = VStr "gpt-4o")
  \/ (arg = "temperature" /\ v = VFloat 0.7)
  \/ (arg = "max_tokens" /\ v = VInt 500).
Proof.
  open_schema "ask-openai-vision".
  repeat match goal with
    | |- context [String.eqb ?k arg] =>
        destruct (String.eqb_spec k arg) as [<- | ?]
    end; cbn; intros [= <-]; auto.
Qed.

Lemma declared_unknown (tool arg attr : string) :
  tool ∉ tool_names -> declared tool arg attr = None.
Proof.
  intros [H1 H2]%not_in_tool_names.
  apply not_eq_sym, String.eqb_neq in H1, H2.
  unfold declared, find_tool, handle_list_tools.
  cbn [List.find name]. by rewrite H1, H2.
Qed.

(** X13. The defaults of the dispatcher are those of the catalog: when
    the schema of the tool declares the default [v] for [arg] and the dict
    does not hold [arg], every request sent for the call carries [v] for
    [arg]. *)
Theorem omitted_argument_gets_declared_default
    (name arg : string) (v : pyval) (args : gmap string pyval) (req : request) :
  size args ≠ 0 ->
  declared name arg "default" = Some v ->
  args !! arg = None ->
  req ∈ requests (trace (dispatch name (Some args))) ->
  request_field arg req = Some v.
Proof.
  intros Hargs Hdecl Hnone. revert Hdecl.
  dict_runs name args Hargs; collaborator_answers; simpl;
    intros Hdecl Hin;
    repeat (apply elem_of_cons in Hin as [-> | Hin]);
    try (by apply elem_of_nil in Hin);
    first [ apply declared_default_text in Hdecl
          | apply declared_default_vision in Hdecl ];
    destruct Hdecl as [[-> ->] | [[-> ->] | [-> ->]]];
    unfold request_field; cbn; by rewrite Hnone.
Qed.

(** X14. Passing a declared default explicitly changes nothing: the call
    with [arg] set to the default that the schema declares gives the same
    result and the same effects as the call without [arg]. *)
Theorem explicit_default_is_redundant
    (name arg : string) (v : pyval) (args : gmap string pyval) :
  size args ≠ 0 ->
  declared name arg "default" = Some v ->
  args !! arg = None ->
  dispatch name (Some (<[arg := v]> args)) = dispatch name (Some args).
Proof.
  intros Hargs Hdecl Hnone.
  assert (Hins : size (<[arg := v]> args) ≠ 0)
    by (by rewrite map_size_insert_None).
  destruct (name_cases name) as [-> | [-> | Hname]].
  - unfold handle_tool_call. f_equal.
    rewrite (dispatch_try_text _ _ _ Hins), (dispatch_try_text _ _ _ Hargs).
    apply declared_default_text in Hdecl
      as [[-> ->] | [[-> ->] | [-> ->]]];
      rewrite lookup_insert_eq, !lookup_insert_ne, Hnone by done;
      reflexivity.
  - unfold handle_tool_call. f_equal.
    rewrite (dispatch_try_vision _ _ _ Hins), (dispatch_try_vision _ _ _ Hargs).
    apply declared_default_vision in Hdecl
      as [[-> ->] | [[-> ->] | [-> ->]]];
      rewrite lookup_insert_eq, !lookup_insert_ne, Hnone by done;
      reflexivity.
  - by rewrite (declared_unknown _ _ _ Hname) in Hdecl.
Qed.

Lemma required_text : required "ask-openai" = ["query"].
Proof. reflexivity. Qed.

Lemma required_vision : required "ask-openai-vision" = ["query"; "image_path"].
Proof. reflexivity. Qed.

Lemma in_tool_names (tool : string) :
  tool ∈ tool_names -> tool = "ask-openai" \/ tool = "ask-openai-vision".
Proof.
  unfold tool_names. simpl. intros H.
  apply elem_of_cons in H as [-> | H]; [by left |].
  apply elem_of_cons in H as [-> | H]; [by right |].
  by apply elem_of_nil in H.
Qed.

(** X15. The keys that the schema lists as required are the keys that the
    dispatcher insists on, in the same order: for a declared tool and a
    dict that holds something, the first required key that is absent is
    the one named in the reply, and nothing is read or sent. *)
Theorem first_missing_argument_is_reported
    (name k : string) (args : gmap string pyval) :
  name ∈ tool_names -> size args ≠ 0 ->
  first_missing name args = Some k ->
  dispatch name (Some args)
  = ([EvLogError server_logger ("Tool call failed: '" +:+ k +:+ "'")],
     inr [ {| type := "text"; text := "Error: '" +:+ k +:+ "'" |} ]).
Proof.
  intros [-> | ->]%in_tool_names Hargs; unfold first_missing.
  - rewrite required_text. cbn [List.find].
    case_bool_decide as Hq; [| discriminate]. intros [= <-].
    by rewrite (dispatch_text_no_query args Hargs Hq).
  - rewrite required_vision. cbn [List.find].
    case_bool_decide as Hq.
    { intros [= <-]. by rewrite (dispatch_vision_no_query args Hargs Hq). }
    case_bool_decide as Hp; [| discriminate]. intros [= <-].
    destruct (args !! "query") as [q |] eqn:Hq'; [| done].
    by rewrite (dispatch_vision_no_image_path args q Hargs Hq' Hp).
Qed.

(** X16. Conversely, a declared tool whose required keys are all there
    goes on to its collaborator: the first effect of the text tool is its
    request, that of the vision tool is the read of [image_path]. *)
Theorem nothing_missing_reaches_the_connector
    (name : string) (args : gmap string pyval) :
  name ∈ tool_names -> size args ≠ 0 ->
  first_missing name args = None ->
  exists first rest,
    trace (dispatch name (Some args)) = first :: rest
    /\ ((name = "ask-openai"
         /\ exists q, args !! "query" = Some q
                      /\ first = EvCreate (text_request args q))
        \/ (name = "ask-openai-vision"
            /\ exists p, args !! "image_path" = Some p /\ first = EvOpen p)).
Proof.
  intros [-> | ->]%in_tool_names Hargs; unfold first_missing.
  - rewrite required_text. cbn [List.find].
    case_bool_decide as Hq; [discriminate |]. intros _.
    destruct (args !! "query") as [q |] eqn:Hq'; [| done].
    rewrite (dispatch_text_run args q Hargs Hq').
    collaborator_answers; simpl; eexists _, _;
      (split; [reflexivity |]); left; (split; [reflexivity |]);
      by exists q.
  - rewrite required_vision. cbn [List.find].
    case_bool_decide as Hq; [discriminate |].
    case_bool_decide as Hp; [discriminate |]. intros _.
    destruct (args !! "query") as [q |] eqn:Hq'; [| done].
    destruct (args !! "image_path") as [p |] eqn:Hp'; [| done].
    rewrite (dispatch_vision_run args q p Hargs Hq' Hp').
    collaborator_answers; simpl; eexists _, _;
      (split; [reflexivity |]); right; (split; [reflexivity |]);
      by exists p.
Qed.

(** ** The connectors on their own *)


(** X23. [ask_openai_vision] opens the file once. When the read raises an
    [Exception], nothing is sent: the trace is the read and one record,
    and the exception raised is that of the read. *)
Theorem ask_openai_vision_read_failure (q p m t mt : pyval) (e : exn) :
  open_rb p = inl e ->
  isinstance_Exception e = true ->
  ask_vision q p m t mt
  = ([EvOpen p;
      EvLogError llm_logger ("Failed to query OpenAI Vision: " +:+ str e)],
     inl e).
Proof.
  intros Hopen Hexc. rewrite (Py_eta (ask_vision q p m t mt)).
  rewrite trace_ask_openai_vision, outcome_ask_openai_vision, Hopen.
  simpl. by rewrite Hexc.
Qed.

(** X24. Whatever the arguments hold, every request has exactly two
    messages: the system message of the connector, which no argument
    reaches, and one user message. *)
Theorem system_message_is_fixed
    (name : string) (arguments : option (gmap string pyval)) (req : request) :
  req ∈ requests (trace (dispatch name arguments)) ->
  exists system user_content,
    messages req
    = VList [ VDict [("role", VStr "system"); ("content", VStr system)];
              VDict [("role", VStr "user"); ("content", user_content)] ]
    /\ (system = "You are a helpful assistant."
        \/ system = "You are a helpful assistant that can analyze images.").
Proof.
  dispatch_runs name arguments; collaborator_answers; simpl;
    intros Hin;
    repeat (apply elem_of_cons in Hin as [-> | Hin]);
    try (by apply elem_of_nil in Hin);
    eexists _, _; (split; [reflexivity |]); auto.
Qed.

End Coverage.

(** ** The encoding, read back *)

Example b64decode_foobar :
  b64decode (list_byte_of_string "Zm9vYmFy") = Some (list_byte_of_string "foobar")
  /\ b64decode (list_byte_of_string "TWE=") = Some (list_byte_of_string "Ma")
  /\ b64decode (list_byte_of_string "TQ==") = Some (list_byte_of_string "M").
Proof. by repeat split. Qed.

(** Division and remainder by constants, through [Z]. *)
Ltac div_lia := zify; Z.to_euclidean_division_equations; lia.

Lemma lor_shiftl_small (x y k : N) :
  (y < 2 ^ k)%N -> N.lor (N.shiftl x k) y = (x * 2 ^ k + y)%N.
Proof.
  intros Hy. rewrite <- N.shiftl_mul_pow2.
  assert (Hland : N.land (N.shiftl x k) y = 0%N).
  { apply N.bits_inj_0. intros n. rewrite N.land_spec.
    destruct (N.lt_ge_cases n k) as [Hn | Hn].
    - by rewrite N.shiftl_spec_low.
    - rewrite <- (N.mod_small y (2 ^ k)) by done.
      rewrite N.mod_pow2_bits_high by done. apply andb_false_r. }
  by rewrite N.add_nocarry_lxor, N.lxor_lor.
Qed.

Lemma to_N_lt (a : byte) : (Byte.to_N a < 256)%N.
Proof. pose proof (Byte.to_N_bounded a). lia. Qed.

(** A block is its three bytes in base 256. *)
Lemma block_eq (a b c : byte) :
  base64.block a b c
  = (Byte.to_N a * 65536 + Byte.to_N b * 256 + Byte.to_N c)%N.
Proof.
  unfold base64.block.
  pose proof (to_N_lt a). pose proof (to_N_lt b). pose proof (to_N_lt c).
  rewrite (lor_shiftl_small (Byte.to_N b) (Byte.to_N c) 8) by done.
  rewrite (lor_shiftl_small (Byte.to_N a) _ 16)
    by (change (2 ^ 16)%N with 65536%N; change (2 ^ 8)%N with 256%N; lia).
  change (2 ^ 16)%N with 65536%N. change (2 ^ 8)%N with 256%N. lia.
Qed.

(** The groups of a block, by division. *)
Lemma sextet_eq (i n : N) :
  base64.sextet i n = ((n / 2 ^ (6 * (3 - i))) mod 64)%N.
Proof.
  unfold base64.sextet. rewrite N.shiftr_div_pow2.
  change 63%N with (N.ones 6). by rewrite N.land_ones.
Qed.

Lemma sextet_lt (i n : N) : (base64.sextet i n < 64)%N.
Proof. rewrite sextet_eq. by apply N.mod_lt. Qed.

(** A check that holds of each of the 64 groups holds of every group. *)
Lemma forall_sextets (f : N -> bool) :
  forallb f (N.of_nat <$> seq 0 64) = true ->
  forall n, (n < 64)%N -> f n = true.
Proof.
  intros Hall n Hn. rewrite forallb_forall in Hall. apply Hall.
  rewrite <- (N2Nat.id n). apply in_map, in_seq. lia.
Qed.

Lemma value_digit (n : N) : (n < 64)%N -> b64_value (base64.digit n) = Some n.
Proof.
  intros Hn.
  pose proof (forall_sextets
                (fun n => bool_decide (b64_value (base64.digit n) = Some n))
                eq_refl n Hn) as H.
  by apply bool_decide_eq_true in H.
Qed.

Lemma digit_not_pad (n : N) :
  (n < 64)%N -> Byte.eqb (base64.digit n) base64.pad = false.
Proof.
  intros Hn.
  pose proof (forall_sextets
                (fun n => negb (Byte.eqb (base64.digit n) base64.pad))
                eq_refl n Hn) as H.
  by apply negb_true_iff in H.
Qed.

Lemma digit_is_b64_char (n : N) :
  (n < 64)%N -> is_b64_char (base64.digit n) = true.
Proof.
  intros Hn.
  exact (forall_sextets (fun n => is_b64_char (base64.digit n)) eq_refl n Hn).
Qed.

(** The three shapes of a decoded block. *)
Lemma decode_one (a : byte) : b64decode (base64.b64encode [a]) = Some [a].
Proof.
  cbn [base64.b64encode b64decode].
  rewrite !value_digit by apply sextet_lt. cbn [mbind option_bind].
  change (Byte.eqb base64.pad base64.pad) with true. cbn match.
  rewrite !sextet_eq, block_eq.
  change (Byte.to_N Byte.x00) with 0%N.
  change (2 ^ (6 * (3 - 0)))%N with 262144%N.
  change (2 ^ (6 * (3 - 1)))%N with 4096%N.
  pose proof (to_N_lt a).
  replace (_ + _)%N with (Byte.to_N a) by div_lia.
  by rewrite Byte.of_to_N.
Qed.

(** The groups and the block, as arithmetic on the bytes. *)
Ltac block_arith :=
  rewrite ?sextet_eq, ?block_eq;
  change (Byte.to_N Byte.x00) with 0%N;
  change (2 ^ (6 * (3 - 0)))%N with 262144%N;
  change (2 ^ (6 * (3 - 1)))%N with 4096%N;
  change (2 ^ (6 * (3 - 2)))%N with 64%N;
  change (2 ^ (6 * (3 - 3)))%N with 1%N.

(** The next byte read back is one of the bytes encoded. *)
Ltac byte_back x :=
  match goal with
  | |- context [Byte.of_N ?e] =>
      replace e with (Byte.to_N x) by div_lia;
      rewrite Byte.of_to_N; cbn [mbind option_bind]
  end.

Lemma decode_two (a b : byte) : b64decode (base64.b64encode [a; b]) = Some [a; b].
Proof.
  cbn [base64.b64encode b64decode].
  rewrite !value_digit by apply sextet_lt. cbn [mbind option_bind].
  change (Byte.eqb base64.pad base64.pad) with true. cbn match.
  rewrite digit_not_pad by apply sextet_lt.
  rewrite ?value_digit by apply sextet_lt. cbn [mbind option_bind].
  block_arith. pose proof (to_N_lt a). pose proof (to_N_lt b).
  byte_back a. byte_back b. reflexivity.
Qed.

Lemma decode_block (a b c : byte) (s : list byte) :
  b64decode (base64.b64encode (a :: b :: c :: s))
  = (tail ← b64decode (base64.b64encode s); Some (a :: b :: c :: tail)).
Proof.
  cbn [base64.b64encode b64decode].
  rewrite !value_digit by apply sextet_lt. cbn [mbind option_bind].
  rewrite digit_not_pad by apply sextet_lt.
  rewrite ?value_digit by apply sextet_lt. cbn [mbind option_bind].
  block_arith.
  pose proof (to_N_lt a). pose proof (to_N_lt b). pose proof (to_N_lt c).
  cbv zeta. byte_back a. byte_back b. byte_back c. reflexivity.
Qed.

(** Decoding undoes encoding. *)
Lemma b64decode_b64encode (s : list byte) :
  b64decode (base64.b64encode s) = Some s.
Proof.
  induction s as [| a | a b | a b c s IH] using list_ind3.
  - reflexivity.
  - apply decode_one.
  - apply decode_two.
  - by rewrite decode_block, IH.
Qed.

(** X18. Every character of an encoding is a letter, a digit, [+], [/] or
    the padding [=]. *)
Theorem b64encode_chars (s : list byte) :
  forallb is_b64_char (base64.b64encode s) = true.
Proof.
  induction s as [| a | a b | a b c s IH] using list_ind3;
    cbn [base64.b64encode forallb];
    rewrite ?digit_is_b64_char by apply sextet_lt;
    [reflexivity | reflexivity | reflexivity | exact IH].
Qed.

(** X19. Two different byte strings have different encodings, so that the
    requests of the vision tool for two different images differ: the
    image sent is the image read, and no other. *)
Theorem b64encode_injective (data1 data2 : list byte) :
  data1 ≠ data2 ->
  base64.b64encode data1 ≠ base64.b64encode data2
  /\ forall args q, vision_request args q data1 ≠ vision_request args q data2.
Proof.
  intros Hne.
  assert (Henc : base64.b64encode data1 ≠ base64.b64encode data2).
  { intros Heq. apply Hne.
    pose proof (b64decode_b64encode data1) as H1.
    rewrite Heq, b64decode_b64encode in H1. by injection H1. }
  split; [exact Henc |].
  intros args q Heq. apply Henc.
  apply (f_equal messages) in Heq. unfold vision_request in Heq.
  cbn [messages] in Heq. unfold vision_messages in Heq.
  injection Heq as Heq. apply string_app_inj_l in Heq.
  unfold decode_utf8 in Heq.
  apply (f_equal list_byte_of_string) in Heq.
  by rewrite !list_byte_of_string_of_list_byte in Heq.
Qed.

(** X20. Encoding goes block by block: after a prefix whose length is a
    multiple of three, the encoding of the whole is the encoding of the
    prefix followed by the encoding of the rest. *)
Theorem b64encode_app (s1 s2 : list byte) :
  length s1 mod 3 = 0 ->
  base64.b64encode (s1 ++ s2) = base64.b64encode s1 ++ base64.b64encode s2.
Proof.
  induction s1 as [| a | a b | a b c s1 IH] using list_ind3; intros Hlen.
  - reflexivity.
  - discriminate Hlen.
  - discriminate Hlen.
  - cbn [app base64.b64encode]. rewrite IH; [reflexivity |].
    cbn [length] in Hlen.
    replace (S (S (S (length s1)))) with (length s1 + 1 * 3) in Hlen by lia.
    by rewrite Nat.Div0.mod_add in Hlen.
Qed.

(** X21. In the schema of each declared tool an argument is required
    exactly when it declares no default, and every required argument is a
    declared one. *)
Theorem required_iff_no_default (tool k : string) :
  tool ∈ tool_names ->
  (k ∈ required tool -> k ∈ declared_keys tool)
  /\ (k ∈ declared_keys tool ->
      (k ∈ required tool <-> declared tool k "default" = None)).
Proof.
  intros [-> | ->]%in_tool_names.
  - rewrite required_text, declared_keys_text. split.
    + intros Hk.
      repeat (apply elem_of_cons in Hk as [-> | Hk]; [list_elem |]).
      by apply elem_of_nil in Hk.
    + intros Hk.
      repeat (apply elem_of_cons in Hk as [-> | Hk];
              [split; intros H;
               first [ reflexivity | solve [list_elem]
                     | vm_compute in H; discriminate H
                     | exfalso;
                       repeat (apply elem_of_cons in H as [H | H];
                               [discriminate H |]);
                       by apply elem_of_nil in H ] |]).
      by apply elem_of_nil in Hk.
  - rewrite required_vision, declared_keys_vision. split.
    + intros Hk.
      repeat (apply elem_of_cons in Hk as [-> | Hk]; [list_elem |]).
      by apply elem_of_nil in Hk.
    + intros Hk.
      repeat (apply elem_of_cons in Hk as [-> | Hk];
              [split; intros H;
               first [ reflexivity | solve [list_elem]
                     | vm_compute in H; discriminate H
                     | exfalso;
                       repeat (apply elem_of_cons in H as [H | H];
                               [discriminate H |]);
                       by apply elem_of_nil in H ] |]).
      by apply elem_of_nil in Hk.
Qed.

(** ** The further theorems at the scenarios *)

Lemma size_query_only : size query_only ≠ 0.
Proof. vm_compute. discriminate. Qed.

Lemma size_query_and_logo : size query_and_logo ≠ 0.
Proof. vm_compute. discriminate. Qed.

Lemma size_query_and_missing : size query_and_missing ≠ 0.
Proof. vm_compute. discriminate. Qed.

(** X2 at a text call that names an image. *)
Lemma only_vision_reads_files_witness :
  reads (trace (handle_tool_call (one_file "/logo.png" png_magic)
                  (answering "4") "ask-openai" (Some query_and_logo)))
  = [].
Proof. apply only_vision_reads_files. discriminate. Defined.

(** X3 at the request of the text scenario. *)
Lemma requests_come_from_arguments_witness :
  exists args q,
    Some query_only = Some args /\ args !! "query" = Some q
    /\ (("ask-openai" = "ask-openai"
         /\ text_request query_only (VStr "2+2?") = text_request args q)
        \/ ("ask-openai" = "ask-openai-vision"
            /\ exists p data,
                 args !! "image_path" = Some p /\ no_such_file p = inr data
                 /\ text_request query_only (VStr "2+2?")
                    = vision_request args q data)).
Proof.
  apply (requests_come_from_arguments no_such_file (answering "4")).
  rewrite (dispatch_text_run no_such_file (answering "4") query_only
             (VStr "2+2?") size_query_only eq_refl).
  simpl. apply list_elem_of_here.
Defined.

(** X4 at the scenario of the missing image. *)
Lemma error_items_are_logged_witness :
  exists before,
    log_records
      (trace (handle_tool_call no_such_file (answering "4")
                "ask-openai-vision" (Some query_and_missing)))
    = before
      ++ [(server_logger,
           "Tool call failed: [Errno 2] No such file or directory: '/missing.jpg'")]
    /\ forall logger msg,
         (logger, msg) ∈ before ->
         logger = llm_logger
         /\ (msg = "Failed to query OpenAI: [Errno 2] No such file or directory: '/missing.jpg'"
             \/ msg = "Failed to query OpenAI Vision: [Errno 2] No such file or directory: '/missing.jpg'").
Proof.
  apply (error_items_are_logged no_such_file (answering "4")
           "ask-openai-vision" (Some query_and_missing)
           (Raised true "[Errno 2] No such file or directory: '/missing.jpg'")).
  reflexivity.
Defined.

(** X5 at the text scenario, which returns an answer. *)
Lemma only_error_items_log_witness :
  log_records (trace (handle_tool_call no_such_file (answering "4")
                        "ask-openai" (Some query_only)))
  = [].
Proof.
  apply only_error_items_log.
  intros e H. cbv in H. discriminate H.
Defined.

(** X6 at a call that is cancelled while it awaits the endpoint. *)
Lemma escaping_exceptions_are_signals_witness :
  isinstance_Exception (Raised false EmptyString) = false
  /\ ((exists p, no_such_file p = inl (Raised false EmptyString))
      \/ (exists req, cancelled req = inl (Raised false EmptyString))).
Proof.
  apply (escaping_exceptions_are_signals no_such_file cancelled "ask-openai"
           (Some query_only)).
  reflexivity.
Defined.

(** X7 at the scenario of the unknown tool with a dict that holds
    something. *)
Lemma every_reply_text_witness :
  (exists answer,
     [ {| type := "text"; text := "Error: Unknown tool: bogus" |} ]
     = [ {| type := "text";
            text := "OpenAI Response:" +:+ LF +:+ format answer |} ]
     \/ [ {| type := "text"; text := "Error: Unknown tool: bogus" |} ]
        = [ {| type := "text";
               text := "OpenAI Vision Response:" +:+ LF +:+ format answer |} ])
  \/ (exists diagnostic,
        [ {| type := "text"; text := "Error: Unknown tool: bogus" |} ]
        = [ {| type := "text"; text := "Error: " +:+ diagnostic |} ]
        /\ (diagnostic = "No arguments provided"
            \/ diagnostic = "Unknown tool: " +:+ "bogus"
            \/ diagnostic = "'query'"
            \/ diagnostic = "'image_path'"
            \/ (exists p e, no_such_file p = inl e /\ diagnostic = str e)
            \/ (exists req e, answering "4" req = inl e /\ diagnostic = str e)
            \/ (exists req response e,
                  answering "4" req = inr response
                  /\ outcome (read_answer response) = inl e
                  /\ diagnostic = str e))).
Proof.
  apply (every_reply_text no_such_file (answering "4") "bogus"
           (Some query_only)).
  reflexivity.
Defined.

(** X8 at the text scenario. *)
Lemma text_tool_answer_witness :
  handle_tool_call no_such_file (answering "4") "ask-openai" (Some query_only)
  = ([EvCreate (text_request query_only (VStr "2+2?"))],
     inr [ {| type := "text"; text := "OpenAI Response:" +:+ LF +:+ "4" |} ]).
Proof.
  apply (text_tool_answer no_such_file (answering "4") query_only
           (VStr "2+2?")
           {| choices := Some [ {| message := {| content := Some "4" |} |} ] |}
           {| message := {| content := Some "4" |} |} []).
  - exact size_query_only.
  - reflexivity.
  - reflexivity.
  - reflexivity.
Defined.

(** X9 at a vision call on a file that exists. *)
Lemma vision_tool_answer_witness :
  handle_tool_call (one_file "/logo.png" png_magic) (answering "a logo")
    "ask-openai-vision" (Some query_and_logo)
  = ([EvOpen (VStr "/logo.png");
      EvCreate (vision_request query_and_logo (VStr "what is this?") png_magic)],
     inr [ {| type := "text";
              text := "OpenAI Vision Response:" +:+ LF +:+ "a logo" |} ]).
Proof.
  apply (vision_tool_answer (one_file "/logo.png" png_magic)
           (answering "a logo") query_and_logo (VStr "what is this?")
           (VStr "/logo.png") png_magic
           {| choices :=
                Some [ {| message := {| content := Some "a logo" |} |} ] |}
           {| message := {| content := Some "a logo" |} |} []).
  - exact size_query_and_logo.
  - reflexivity.
  - reflexivity.
  - reflexivity.
  - reflexivity.
  - reflexivity.
Defined.

(** X10 at an endpoint that answers without choices. *)
Lemma empty_choices_error_witness :
  handle_tool_call no_such_file no_choices "ask-openai" (Some query_only)
  = ([EvCreate (text_request query_only (VStr "2+2?"));
      EvLogError llm_logger "Failed to query OpenAI: list index out of range";
      EvLogError server_logger "Tool call failed: list index out of range"],
     inr [ {| type := "text"; text := "Error: list index out of range" |} ]).
Proof.
  apply (empty_choices_error no_such_file no_choices query_only (VStr "2+2?")
           {| choices := Some [] |}).
  - exact size_query_only.
  - reflexivity.
  - reflexivity.
  - reflexivity.
Defined.

(** X11 at an endpoint whose first choice has no content. *)
Lemma null_content_reads_as_answer_witness :
  handle_tool_call no_such_file answering_null "ask-openai" (Some query_only)
  = ([EvCreate (text_request query_only (VStr "2+2?"))],
     inr [ {| type := "text"; text := "OpenAI Response:" +:+ LF +:+ "None" |} ])
  /\ status_of
       {| type := "text"; text := "OpenAI Response:" +:+ LF +:+ "None" |}
     = ok.
Proof.
  apply (null_content_reads_as_answer no_such_file answering_null query_only
           (VStr "2+2?")
           {| choices := Some [ {| message := {| content := None |} |} ] |}
           {| message := {| content := None |} |} []).
  - exact size_query_only.
  - reflexivity.
  - reflexivity.
  - reflexivity.
  - reflexivity.
Defined.

(** X12 at an endpoint that rejects the request, for both tools. *)
Lemma rejected_request_is_logged_twice_witness :
  handle_tool_call (one_file "/logo.png" png_magic)
    (rejecting "Error code: 401") "ask-openai" (Some query_and_logo)
  = ([EvCreate (text_request query_and_logo (VStr "what is this?"));
      EvLogError llm_logger "Failed to query OpenAI: Error code: 401";
      EvLogError server_logger "Tool call failed: Error code: 401"],
     inr [ {| type := "text"; text := "Error: Error code: 401" |} ])
  /\ handle_tool_call (one_file "/logo.png" png_magic)
       (rejecting "Error code: 401") "ask-openai-vision" (Some query_and_logo)
     = ([EvOpen (VStr "/logo.png");
         EvCreate
           (vision_request query_and_logo (VStr "what is this?") png_magic);
         EvLogError llm_logger "Failed to query OpenAI Vision: Error code: 401";
         EvLogError server_logger "Tool call failed: Error code: 401"],
        inr [ {| type := "text"; text := "Error: Error code: 401" |} ]).
Proof.
  destruct (rejected_request_is_logged_twice (one_file "/logo.png" png_magic)
              (rejecting "Error code: 401") query_and_logo
              (VStr "what is this?") (Raised true "Error code: 401"))
    as [Htext Hvision].
  - exact size_query_and_logo.
  - reflexivity.
  - reflexivity.
  - split.
    + apply Htext. reflexivity.
    + apply (Hvision (VStr "/logo.png") png_magic); reflexivity.
Defined.

(** X13 at a text call that leaves the model out. *)
Lemma omitted_argument_gets_declared_default_witness :
  request_field "model" (text_request query_only (VStr "2+2?"))
  = Some (VStr "gpt-4").
Proof.
  apply (omitted_argument_gets_declared_default no_such_file (answering "4")
           "ask-openai" "model" (VStr "gpt-4") query_only).
  - exact size_query_only.
  - reflexivity.
  - reflexivity.
  - rewrite (dispatch_text_run no_such_file (answering "4") query_only
               (VStr "2+2?") size_query_only eq_refl).
    simpl. apply list_elem_of_here.
Defined.

(** X14 at a vision call with the temperature spelt out. *)
Lemma explicit_default_is_redundant_witness :
  handle_tool_call (one_file "/logo.png" png_magic) (answering "a logo")
    "ask-openai-vision"
    (Some (<[ "temperature" := VFloat 0.7 ]> query_and_logo))
  = handle_tool_call (one_file "/logo.png" png_magic) (answering "a logo")
      "ask-openai-vision" (Some query_and_logo).
Proof.
  apply explicit_default_is_redundant.
  - exact size_query_and_logo.
  - reflexivity.
  - reflexivity.
Defined.

(** X15 at a vision call without [image_path]. *)
Lemma first_missing_argument_is_reported_witness :
  handle_tool_call no_such_file (answering "4") "ask-openai-vision"
    (Some query_only)
  = ([EvLogError server_logger "Tool call failed: 'image_path'"],
     inr [ {| type := "text"; text := "Error: 'image_path'" |} ]).
Proof.
  apply (first_missing_argument_is_reported no_such_file (answering "4")
           "ask-openai-vision" "image_path" query_only).
  - unfold tool_names. simpl. list_elem.
  - exact size_query_only.
  - reflexivity.
Defined.

(** X16 at the text scenario. *)
Lemma nothing_missing_reaches_the_connector_witness :
  exists first rest,
    trace (handle_tool_call no_such_file (answering "4") "ask-openai"
             (Some query_only))
    = first :: rest
    /\ (("ask-openai" = "ask-openai"
         /\ exists q, query_only !! "query" = Some q
                      /\ first = EvCreate (text_request query_only q))
        \/ ("ask-openai" = "ask-openai-vision"
            /\ exists p, query_only !! "image_path" = Some p
                         /\ first = EvOpen p)).
Proof.
  apply nothing_missing_reaches_the_connector.
  - unfold tool_names. simpl. list_elem.
  - exact size_query_only.
  - reflexivity.
Defined.

(** X19 at two one-byte images. *)
Lemma b64encode_injective_witness :
  base64.b64encode [Byte.x4d] ≠ base64.b64encode [Byte.x4e]
  /\ forall args q,
       vision_request args q [Byte.x4d] ≠ vision_request args q [Byte.x4e].
Proof. apply b64encode_injective. discriminate. Defined.

(** X20 at ["foo"] followed by ["bar"]. *)
Lemma b64encode_app_witness :
  base64.b64encode (list_byte_of_string "foo" ++ list_byte_of_string "bar")
  = base64.b64encode (list_byte_of_string "foo")
    ++ base64.b64encode (list_byte_of_string "bar").
Proof. apply b64encode_app. reflexivity. Defined.

(** X21 at the image path of the vision tool. *)
Lemma required_iff_no_default_witness :
  ("image_path" ∈ required "ask-openai-vision" ->
   "image_path" ∈ declared_keys "ask-openai-vision")
  /\ ("image_path" ∈ declared_keys "ask-openai-vision" ->
      ("image_path" ∈ required "ask-openai-vision"
       <-> declared "ask-openai-vision" "image_path" "default" = None)).
Proof.
  apply required_iff_no_default. unfold tool_names. simpl. list_elem.
Defined.


(** X23 at the missing image. *)
Lemma ask_openai_vision_read_failure_witness :
  ask_openai_vision no_such_file (answering "4") (VStr "what is this?")
    (VStr "/missing.jpg") (VStr "gpt-4o") (VFloat 0.7) (VInt 500)
  = ([EvOpen (VStr "/missing.jpg");
      EvLogError llm_logger
        "Failed to query OpenAI Vision: [Errno 2] No such file or directory: '/missing.jpg'"],
     inl (Raised true "[Errno 2] No such file or directory: '/missing.jpg'")).
Proof.
  apply (ask_openai_vision_read_failure no_such_file (answering "4")
           (VStr "what is this?") (VStr "/missing.jpg") (VStr "gpt-4o")
           (VFloat 0.7) (VInt 500)
           (Raised true "[Errno 2] No such file or directory: '/missing.jpg'")).
  - reflexivity.
  - reflexivity.
Defined.

(** X24 at the request of the text scenario. *)
Lemma system_message_is_fixed_witness :
  exists system user_content,
    messages (text_request query_only (VStr "2+2?"))
    = VList [ VDict [("role", VStr "system"); ("content", VStr system)];
              VDict [("role", VStr "user"); ("content", user_content)] ]
    /\ (system = "You are a helpful assistant."
        \/ system = "You are a helpful assistant that can analyze images.").
Proof.
  apply (system_message_is_fixed no_such_file (answering "4") "ask-openai"
           (Some query_only)).
  rewrite (dispatch_text_run no_such_file (answering "4") query_only
             (VStr "2+2?") size_query_only eq_refl).
  simpl. apply list_elem_of_here.
Defined.

(** X25 at an endpoint whose answer has no [choices] field. *)
Lemma missing_choices_error_witness :
  handle_tool_call no_such_file no_choices_field "ask-openai" (Some query_only)
  = ([EvCreate (text_request query_only (VStr "2+2?"));
      EvLogError llm_logger
        "Failed to query OpenAI: 'NoneType' object is not subscriptable";
      EvLogError server_logger
        "Tool call failed: 'NoneType' object is not subscriptable"],
     inr [ {| type := "text";
              text := "Error: 'NoneType' object is not subscriptable" |} ]).
Proof.
  apply (missing_choices_error no_such_file no_choices_field query_only
           (VStr "2+2?") {| choices := None |}).
  - exact size_query_only.
  - reflexivity.
  - reflexivity.
  - reflexivity.
Defined.

(** ** The error boundary at the scenarios *)

(** C1 as stated, at a call that is cancelled while it awaits the client:
    [asyncio.CancelledError] does not derive from [Exception], so no
    envelope is returned and the exception leaves [handle_tool_call]. *)
Lemma cancelled_call_counterexample :
  outcome (handle_tool_call no_such_file cancelled "ask-openai"
             (Some query_only))
  = inl (Raised false EmptyString)
  /\ ~ exists reply,
         outcome (handle_tool_call no_such_file cancelled "ask-openai"
                    (Some query_only))
         = inr reply.
Proof.
  split; [reflexivity |]. intros [reply Hreply].
  vm_compute in Hreply. discriminate Hreply.
Qed.

(** C1 as amended, at a request that the client rejects. *)
Lemma handle_tool_call_error_boundary_witness :
  outcome (handle_tool_call no_such_file (rejecting "Connection error.")
             "ask-openai" (Some query_only))
  = inr [ {| type := "text"; text := "Error: Connection error." |} ]
  /\ exists reply,
       outcome (handle_tool_call no_such_file (rejecting "Connection error.")
                  "ask-openai" (Some query_only))
       = inr reply.
Proof.
  destruct (handle_tool_call_error_boundary no_such_file
              (rejecting "Connection error.") "ask-openai" (Some query_only))
    as (_ & Hcaught & Halways).
  split.
  - apply (Hcaught (Raised true "Connection error.")); reflexivity.
  - apply Halways.
    + apply raises_Exception_no_such_file.
    + apply raises_Exception_rejecting.
Defined.

(** C9 as stated, at a vision call whose read of the image is
    interrupted: there is no result, hence no list of one item. *)
Lemma interrupted_read_counterexample :
  outcome (handle_tool_call interrupted_read (answering "4")
             "ask-openai-vision" (Some query_and_logo))
  = inl (Raised false EmptyString)
  /\ ~ exists c,
         outcome (handle_tool_call interrupted_read (answering "4")
                    "ask-openai-vision" (Some query_and_logo))
         = inr [c].
Proof.
  split; [reflexivity |]. intros [c Hc].
  vm_compute in Hc. discriminate Hc.
Qed.
